(** * XAI Decision Engine: application workflow and review console

    A shallow embedding of the TypeScript views of the repository
    (employee dashboard, customer portal, explanation editor, policy
    manager) and of the application workflow their API calls address.

    Conventions of the embedding:
    - JavaScript strings are [string]s; [toLowerCase], [trim] and
      [includes] are written out on ASCII (bytes >= 128 are kept as they
      are), which covers every literal the views compare against;
    - a JS object used as a map ([realData], [formData], the decision
      store) is a [gmap] keyed by [string];
    - an awaited API call is an input of the handler: its outcome is a
      [result], [Ok v] when the promise resolves and [Err e] when it
      rejects;
    - a handler is modelled by what it leaves behind once its promise
      has settled: a busy flag raised at entry and cleared in [finally]
      shows as cleared;
    - [console.error] and [alert] append to the [console] and [alerts]
      logs of the [Screen]; only [alerts] and the component's own error
      field reach the user. *)

From Stdlib Require Import Ascii String QArith.
From stdpp Require Import gmap strings list fin_maps stringmap.

Open Scope Z_scope.
Open Scope string_scope.

(** ** JavaScript string primitives *)

Module JS.

Definition is_upper (c : ascii) : bool :=
  let n := N_of_ascii c in ((65 <=? n) && (n <=? 90))%N.

Definition lower_char (c : ascii) : ascii :=
  if is_upper c then ascii_of_N (N_of_ascii c + 32) else c.

(** [String.prototype.toLowerCase] on ASCII text: the letters A to Z
    are lowered, every other byte is kept. *)
Fixpoint toLowerCase (s : string) : string :=
  match s with
  | EmptyString => EmptyString
  | String c r => String (lower_char c) (toLowerCase r)
  end.

(** [String.prototype.includes]: [q] occurs in [s] as a substring. *)
Fixpoint includes (s q : string) : bool :=
  if String.prefix q s then true
  else match s with
       | EmptyString => false
       | String _ r => includes r q
       end.

(** White space removed by [trim]: TAB, LF, VT, FF, CR and SPACE. *)
Definition is_space (c : ascii) : bool :=
  let n := N_of_ascii c in (((9 <=? n) && (n <=? 13)) || (n =? 32))%N.

Fixpoint trimStart (s : string) : string :=
  match s with
  | EmptyString => EmptyString
  | String c r => if is_space c then trimStart r else s
  end.

Fixpoint trimEnd (s : string) : string :=
  match s with
  | EmptyString => EmptyString
  | String c r =>
      let r' := trimEnd r in
      if is_space c && String.eqb r' "" then "" else String c r'
  end.

(** [String.prototype.trim] on ASCII text. *)
Definition trim (s : string) : string := trimEnd (trimStart s).

(** Truthiness of a string value: only the empty string is falsy. *)
Definition truthy (s : string) : bool := negb (String.eqb s "").

(** Truthiness of a possibly [undefined]/[null] string. *)
Definition truthy_opt (o : option string) : bool :=
  match o with
  | Some s => truthy s
  | None => false
  end.

(** [a || b] on a possibly missing string with a string default. *)
Definition or_else (o : option string) (d : string) : string :=
  match o with
  | Some s => if truthy s then s else d
  | None => d
  end.

(** [Array.prototype.includes] on an array of strings. *)
Definition arr_includes (l : list string) (x : string) : bool :=
  existsb (String.eqb x) l.

(** Outcome of an awaited promise. *)
Inductive result (A : Type) : Type :=
| Ok (a : A)
| Err (e : string).
Arguments Ok {A} a.
Arguments Err {A} e.

End JS.
Export JS.

(** ** Data model ([lib/types]: [CaseData], [AiResultType]) *)

Record ModelOutput := {
  label : string;
  confidence : Q
}.

Record Decision := {
  d_status : string;
  d_reasoning : string;
  d_confidence : Q
}.

Record AiResult := {
  decision : Decision;
  alternative_reasoning : option string;
  counterfactuals : option (list string)
}.

Record Explanation := { summary : string }.

(** One record of the decision store as the views read it. *)
Record CaseData := {
  decision_id : string;
  domain : string;
  applicant_name : option string;
  applicant_id : option string;   (* input_features.applicant_id *)
  model_output : ModelOutput;
  ai_result : option AiResult;
  explanation : Explanation;
  is_override : bool
}.

(** ** Employee dashboard (components/EmployeeDashboard.tsx) *)

Module Dashboard.

Inductive FilterType := All | Approved | Denied | Pending.

Definition positiveTerms : list string :=
  ["approved"; "hired"; "low risk"; "low_risk"].

Definition is_pending (d : CaseData) : bool :=
  String.eqb (label (model_output d)) "Pending".

Definition is_positive (d : CaseData) : bool :=
  arr_includes positiveTerms (toLowerCase (label (model_output d))).

Record Stats := {
  pending : Z;
  approved : Z;
  declined : Z;
  total : Z
}.

Definition count (p : CaseData -> bool) (data : list CaseData) : Z :=
  Z.of_nat (length (List.filter p data)).

(** [getStats]: the category id is not used by the body. *)
Definition getStats (data : list CaseData) (categoryId : string) : Stats :=
  let pending := count is_pending data in
  let approved := count is_positive data in
  let declined := Z.of_nat (length data) - approved - pending in
  {| pending := pending; approved := approved; declined := declined;
     total := Z.of_nat (length data) |}.

(** The predicate of the second [cases.filter] of [filteredCases],
    reached for the filters other than [Pending] and [All]. *)
Definition decided_filter (filter : FilterType) (c : CaseData) : bool :=
  if is_pending c then false
  else
    let isPositive := is_positive c in
    match filter with
    | Approved => isPositive
    | _ => negb isPositive
    end.

(** The search predicate: applicant id or decision id contains the
    query. *)
Definition matches_search (searchQuery : string) (c : CaseData) : bool :=
  includes (or_else (applicant_id c) "") searchQuery
  || includes (toLowerCase (decision_id c)) (toLowerCase searchQuery).

(** [filteredCases]. *)
Definition filteredCases (selectedCategory : option string)
    (realData : gmap string (list CaseData))
    (searchQuery : string) (filter : FilterType) : list CaseData :=
  if negb (truthy_opt selectedCategory) then []
  else
    let cases := default [] (selectedCategory ≫= (realData !!.)) in
    let cases :=
      match filter with
      | Pending => List.filter is_pending cases
      | All => cases
      | _ => List.filter (decided_filter filter) cases
      end in
    List.filter (matches_search searchQuery) cases.

(** *** Component state and [handleAction] *)

Inductive Action := ActionApproved | ActionDenied.

Inductive EditorMode := ModeEdit | ModeOverride.

Record EditorState := {
  isOpen : bool;
  mode : EditorMode;
  initialText : string;
  action : option Action
}.

Record CategoryState := {
  searchQuery : string;
  activeCase : option CaseData;
  filter : FilterType
}.

Record State := {
  selectedCategory : option string;
  categoryStates : gmap string CategoryState;
  realData : gmap string (list CaseData);
  loading : bool;
  explanationEditorState : EditorState
}.

Definition defaultCategoryState : CategoryState :=
  {| searchQuery := ""; activeCase := None; filter := Pending |}.

(** [getCurrentState]. *)
Definition getCurrentState (st : State) : CategoryState :=
  if truthy_opt (selectedCategory st)
  then default defaultCategoryState
         (selectedCategory st ≫= (categoryStates st !!.))
  else defaultCategoryState.

(** [updateState({ activeCase: c })]. *)
Definition updateActiveCase (st : State) (c : CaseData) : State :=
  match selectedCategory st with
  | Some cat =>
      if truthy cat then
        let prev := default defaultCategoryState (categoryStates st !! cat) in
        {| selectedCategory := selectedCategory st;
           categoryStates :=
             <[cat := {| searchQuery := searchQuery prev;
                         activeCase := Some c;
                         filter := filter prev |}]> (categoryStates st);
           realData := realData st;
           loading := loading st;
           explanationEditorState := explanationEditorState st |}
      else st
  | None => st
  end.

Definition setRealData (st : State) (d : gmap string (list CaseData)) : State :=
  {| selectedCategory := selectedCategory st;
     categoryStates := categoryStates st;
     realData := d;
     loading := loading st;
     explanationEditorState := explanationEditorState st |}.

Definition setLoading (st : State) (b : bool) : State :=
  {| selectedCategory := selectedCategory st;
     categoryStates := categoryStates st;
     realData := realData st;
     loading := b;
     explanationEditorState := explanationEditorState st |}.

Definition setExplanationEditorState (st : State) (e : EditorState) : State :=
  {| selectedCategory := selectedCategory st;
     categoryStates := categoryStates st;
     realData := realData st;
     loading := loading st;
     explanationEditorState := e |}.

(** The calls a handler makes on [lib/api]. *)
Inductive ApiCall :=
| UpdateApplicationStatus (id category : string) (a : Action) (explanation : string)
| GetApplications.

(** What running a handler leaves behind: the component state, the
    API calls made in order, and the error of a rejected promise that
    no [catch] of the handler took. *)
Record Run := {
  state : State;
  calls : list ApiCall;
  uncaught : option string
}.

(** Period of the dashboard's listing poll, in milliseconds. *)
Definition listPollInterval : Z := 5000.

(** [loadData], the callback of the listing timer; [res] is the
    outcome of [api.getApplications]. The callback has no [catch]. *)
Definition loadData (st : State)
    (res : result (gmap string (list CaseData))) : Run :=
  match res with
  | Ok data =>
      {| state := setLoading (setRealData st data) false;
         calls := [GetApplications]; uncaught := None |}
  | Err e => {| state := st; calls := [GetApplications]; uncaught := Some e |}
  end.

Definition manualApproval : string :=
  "Manually approved by auditor based on provided evidence.".

Definition manualDenial : string :=
  "Manually denied by auditor due to policy mismatch.".

(** The explanation [handleAction] builds for [action], with the AI
    status [own] that lets the AI's own reasoning through. *)
Definition actionExplanation (fallback own : string) (c : CaseData) : string :=
  match ai_result c with
  | Some ai =>
      if String.eqb (toLowerCase (d_status (decision ai))) own
      then d_reasoning (decision ai)
      else or_else (alternative_reasoning ai) fallback
  | None => fallback
  end.

(** [handleAction]; [upd] and [apps] are the outcomes of the awaited
    [api.updateApplicationStatus] and [api.getApplications]. *)
Definition handleAction (st : State) (a : Action)
    (upd : result unit) (apps : result (gmap string (list CaseData))) : Run :=
  let idle := {| state := st; calls := []; uncaught := None |} in
  match selectedCategory st, activeCase (getCurrentState st) with
  | Some cat, Some c =>
      if negb (truthy cat) then idle
      else
        match a with
        | ActionApproved =>
            let explanation := actionExplanation manualApproval "approved" c in
            let call := UpdateApplicationStatus (decision_id c) cat a explanation in
            match upd with
            | Err e => {| state := st; calls := [call]; uncaught := Some e |}
            | Ok _ =>
                match apps with
                | Err e =>
                    {| state := st; calls := [call; GetApplications];
                       uncaught := Some e |}
                | Ok newData =>
                    let st1 := setRealData st newData in
                    match newData !! cat with
                    | None =>
                        {| state := st1; calls := [call; GetApplications];
                           uncaught := Some "TypeError" |}
                    | Some l =>
                        let st2 :=
                          match List.find (fun x => String.eqb (decision_id x) (decision_id c)) l with
                          | Some updatedCase => updateActiveCase st1 updatedCase
                          | None => st1
                          end in
                        {| state := st2; calls := [call; GetApplications];
                           uncaught := None |}
                    end
                end
            end
        | ActionDenied =>
            let explanation := actionExplanation manualDenial "rejected" c in
            {| state :=
                 setExplanationEditorState st
                   {| isOpen := true; mode := ModeOverride;
                      initialText := explanation;
                      action := Some ActionDenied |};
               calls := []; uncaught := None |}
        end
  | _, _ => idle
  end.

End Dashboard.

(** ** Result screen (components/AiResult.tsx) *)

Module AiResultView.

(** [result.decision]: a plain string when it comes from the customer
    portal, an object with an optional [status] otherwise, or absent. *)
Inductive DecisionField :=
| DString (s : string)
| DObject (status : option string)
| DMissing.

Record AiResultType := {
  decision : DecisionField;
  summary : string;
  counterfactuals : option (list string)
}.

Definition decisionText (result : AiResultType) : string :=
  match decision result with
  | DString s => s
  | DObject status => or_else status ""
  | DMissing => ""
  end.

Definition isDenied (result : AiResultType) : bool :=
  String.eqb (toLowerCase (decisionText result)) "denied"
  || String.eqb (toLowerCase (decisionText result)) "high risk".

Definition isApproved (result : AiResultType) : bool :=
  negb (isDenied result).

Definition congratulations : string :=
  "Congratulations! Your application has been approved.".

(** The text of the heading. *)
Definition heading (result : AiResultType) : string :=
  if isApproved result then congratulations else decisionText result.

(** The "Steps to Approval" list is shown only on a denial with a
    non-empty list of counterfactuals. *)
Definition showsSteps (result : AiResultType) : bool :=
  negb (isApproved result)
  && match counterfactuals result with
     | Some (_ :: _) => true
     | _ => false
     end.

End AiResultView.

(** ** Screen effects shared by the handlers *)

(** What a handler writes outside its component state: the developer
    console ([console.error]) and the blocking [alert] dialog. *)
Record Screen := {
  console : list string;
  alerts : list string
}.

Definition log (msg : string) (s : Screen) : Screen :=
  {| console := console s ++ [msg]; alerts := alerts s |}.

Definition alert (msg : string) (s : Screen) : Screen :=
  {| console := console s; alerts := alerts s ++ [msg] |}.

(** A value of a submitted payload: form inputs hold strings, [Number(..)]
    yields a number, [NaN] when the text is not numeric. *)
Inductive JSValue :=
| JStr (s : string)
| JNum (q : Q)
| JNaN.

(** The answer of [submitApplication]. *)
Record SubmitResponse := {
  resp_id : string;
  resp_status : string
}.

(** ** Customer portal (components/CustomerPortal.tsx) *)

Module CustomerPortal.

Inductive PollStatus := idle | waiting | completed.

Inductive FieldType := TText | TNumber | TSelect.

Record FormField := {
  name : string;
  type : FieldType
}.

Record State := {
  applicationType : option string;
  formData : gmap string string;
  isSubmitting : bool;
  submittedId : option string;
  pollStatus : PollStatus;
  aiResult : option AiResultView.AiResultType
}.

Definition PollStatus_eqb (a b : PollStatus) : bool :=
  match a, b with
  | idle, idle | waiting, waiting | completed, completed => true
  | _, _ => false
  end.

(** Period of the status poll, in milliseconds. *)
Definition statusPollInterval : Z := 2000.

(** The polling effect: the period of the timer it registers for the
    state, [None] when it registers none. *)
Definition pollingEffect (st : State) : option Z :=
  if PollStatus_eqb (pollStatus st) waiting
     && truthy_opt (submittedId st) && truthy_opt (applicationType st)
  then Some statusPollInterval
  else None.

(** One run of the interval callback; [res] is the outcome of
    [api.getApplicationStatus], [Ok None] for an empty answer. *)
Definition pollTick (st : State) (scr : Screen)
    (res : result (option CaseData)) : State * Screen :=
  match res with
  | Ok (Some status) =>
      if negb (String.eqb (label (model_output status)) "Pending") then
        ({| applicationType := applicationType st;
            formData := formData st;
            isSubmitting := isSubmitting st;
            submittedId := submittedId st;
            pollStatus := completed;
            aiResult :=
              Some {| AiResultView.decision :=
                        AiResultView.DString (label (model_output status));
                      AiResultView.summary := summary (explanation status);
                      AiResultView.counterfactuals :=
                        ai_result status ≫= counterfactuals |} |},
         scr)
      else (st, scr)
  | Ok None => (st, scr)
  | Err e => (st, log "Polling Error" scr)
  end.

(** The numeric conversion loop of [handleFormSubmit] over the fields
    of the form; [Number] is JavaScript's conversion. *)
Definition cleanField (Number : string -> JSValue)
    (cleanedData : gmap string JSValue) (field : FormField)
    : gmap string JSValue :=
  match type field, cleanedData !! name field with
  | TNumber, Some (JStr v) =>
      if truthy v then <[name field := Number v]> cleanedData
      else cleanedData
  | _, _ => cleanedData   (* absent, or a number already: no change *)
  end.

Definition cleanData (Number : string -> JSValue)
    (fields : list FormField) (formData : gmap string string)
    : gmap string JSValue :=
  foldl (cleanField Number) (JStr <$> formData) fields.

Record Submission := {
  sub_domain : option string;
  sub_payload : gmap string JSValue
}.

(** [handleFormSubmit]; [FORM_FIELDS] is the table of [lib/constants],
    [res] the outcome of [api.submitApplication]. *)
Definition handleFormSubmit (Number : string -> JSValue)
    (FORM_FIELDS : gmap string (list FormField))
    (st : State) (scr : Screen) (res : result SubmitResponse)
    : State * Screen * Submission :=
  let key := or_else (applicationType st) "loan" in
  let fields := default [] (FORM_FIELDS !! key) in
  let sent := {| sub_domain := applicationType st;
                 sub_payload := cleanData Number fields (formData st) |} in
  match res with
  | Ok response =>
      ({| applicationType := applicationType st;
          formData := formData st;
          isSubmitting := false;
          submittedId := Some (resp_id response);
          pollStatus := waiting;
          aiResult := aiResult st |}, scr, sent)
  | Err e =>
      ({| applicationType := applicationType st;
          formData := formData st;
          isSubmitting := false;
          submittedId := submittedId st;
          pollStatus := pollStatus st;
          aiResult := aiResult st |},
       alert "Submission failed. Please try again."
         (log "Submission error:" scr), sent)
  end.

End CustomerPortal.

(** ** Stand-alone customer page (customer/page.tsx) *)

Module CustomerPage.

Inductive Domain := loan | credit | insurance | job.

Record State := {
  domain : Domain;
  loading : bool;
  success : option SubmitResponse;
  error : option string;
  formData : gmap string string
}.

(** The field names [handleSubmit] converts to numbers. *)
Definition numericFields : list string :=
  ["age"; "monthly_income"; "existing_debt"; "credit_score"; "loan_amount";
   "employment_years"; "annual_income"; "accounts_open"; "policy_years";
   "claim_amount"; "annual_premium"; "years_experience"; "expected_salary"].

Definition coerceField (Number : string -> JSValue)
    (payload : gmap string JSValue) (field : string) : gmap string JSValue :=
  match payload !! field with
  | Some (JStr v) =>
      if truthy v then <[field := Number v]> payload else payload
  | _ => payload
  end.

Definition buildPayload (Number : string -> JSValue)
    (formData : gmap string string) : gmap string JSValue :=
  foldl (coerceField Number) (JStr <$> formData) numericFields.

(** [handleSubmit]; [res] is the outcome of [submitApplication]. *)
Definition handleSubmit (Number : string -> JSValue)
    (st : State) (scr : Screen) (res : result SubmitResponse)
    : State * Screen * (Domain * gmap string JSValue) :=
  let sent := (domain st, buildPayload Number (formData st)) in
  match res with
  | Ok r =>
      ({| domain := domain st; loading := false; success := Some r;
          error := None; formData := formData st |}, scr, sent)
  | Err msg =>
      ({| domain := domain st; loading := false; success := None;
          error := Some (or_else (Some msg) "Failed to submit application");
          formData := formData st |},
       log msg scr, sent)
  end.

Inductive InputKind := KText | KNumber | KSelect (options : list string).

(** The inputs [renderFormFields] puts on the form of a domain, after
    the [full_name] input common to all; every one is [required]. *)
Definition renderFormFields (d : Domain) : list (string * InputKind) :=
  match d with
  | loan =>
      [("age", KNumber); ("gender", KSelect ["M"; "F"; "Other"]);
       ("marital_status", KSelect ["Single"; "Married"; "Divorced"]);
       ("employment_years", KNumber);
       ("employment_type",
         KSelect ["Permanent"; "Contract"; "Self-Employed"; "Unemployed"]);
       ("monthly_income", KNumber); ("existing_debt", KNumber);
       ("credit_score", KNumber); ("loan_amount", KNumber);
       ("loan_purpose", KSelect ["Home"; "Vehicle"; "Personal"; "Education"])]
  | job =>
      [("job_title", KText); ("years_experience", KNumber);
       ("education_level", KSelect ["High School"; "Bachelor"; "Master"; "PhD"]);
       ("companies_worked", KNumber); ("career_gaps", KNumber);
       ("expected_salary", KNumber)]
  | credit =>
      [("customer_id", KText); ("credit_score", KNumber);
       ("annual_income", KNumber); ("accounts_open", KNumber);
       ("credit_history_years", KNumber); ("defaults", KNumber)]
  | insurance =>
      [("age", KNumber); ("policy_type", KSelect ["Vehicle"; "Home"; "Health"]);
       ("policy_years", KNumber); ("previous_claims", KNumber);
       ("claim_amount", KNumber);
       ("incident_severity", KSelect ["minor"; "moderate"; "severe"])]
  end.

Definition formFields (d : Domain) : list (string * InputKind) :=
  ("full_name", KText) :: renderFormFields d.

End CustomerPage.

(** ** Earlier review console (the dashboard page polling [getApplications]) *)

Module ReviewConsole.

Inductive Tab := pending | history.

Record Application := {
  id : string;
  domain : string;
  full_name : option string;
  ai_result : option AiResult
}.

Record State := {
  activeTab : Tab;
  applications : list Application;
  selectedApp : option Application;
  loading : bool;
  filterDomain : string
}.

(** Period of the listing poll, in milliseconds. *)
Definition listPollInterval : Z := 5000.

(** The effect registers its timer whatever the state. *)
Definition pollingEffect (st : State) : option Z := Some listPollInterval.

(** The status asked of [getApplications] for the tab. *)
Definition requestedStatus (t : Tab) : string :=
  match t with
  | pending => "pending_human"
  | history => "completed"
  end.

(** [fetchApplications]; [res] is the outcome of [getApplications].
    The [finally] block clears [loading] on both paths. *)
Definition fetchApplications (st : State) (scr : Screen)
    (res : result (list Application)) : State * Screen :=
  match res with
  | Ok data =>
      ({| activeTab := activeTab st; applications := data;
          selectedApp := selectedApp st; loading := false;
          filterDomain := filterDomain st |}, scr)
  | Err e =>
      ({| activeTab := activeTab st; applications := applications st;
          selectedApp := selectedApp st; loading := false;
          filterDomain := filterDomain st |}, log e scr)
  end.

Inductive ReviewDecision := approved | rejected.

(** [handleDecision]; [res] is the outcome of [reviewApplication],
    and the second component the call made, if any. *)
Definition handleDecision (st : State) (scr : Screen) (decision : ReviewDecision)
    (res : result unit)
    : State * Screen * option (string * ReviewDecision * string) :=
  match selectedApp st with
  | None => (st, scr, None)
  | Some app =>
      let appId := id app in
      let st' :=
        {| activeTab := activeTab st;
           applications :=
             List.filter (fun a => negb (String.eqb (id a) appId))
               (applications st);
           selectedApp := None; loading := loading st;
           filterDomain := filterDomain st |} in
      let call := Some (appId, decision, "Manual review by employee") in
      match res with
      | Ok _ => (st', scr, call)
      | Err e =>
          (st', alert "Failed to submit decision. Please refresh."
                  (log "Decision failed" scr), call)
      end
  end.

End ReviewConsole.

(** ** Policy manager (components/PolicyManager.tsx) *)

Module PolicyManager.

Record Policy := {
  policy_id : string;
  policy_text : string
}.

Record State := {
  activeDomain : string;
  policies : gmap string (list Policy);
  newPolicyText : string;
  loading : bool;
  dragActive : bool
}.

Inductive ApiCall :=
| GetPolicies
| AddPolicy (domain text : string)
| DeletePolicy (domain policyId : string)
| UploadPolicyFile (domain file : string).

Record Run := {
  state : State;
  screen : Screen;
  calls : list ApiCall
}.

Definition setPolicies (st : State) (d : gmap string (list Policy)) : State :=
  {| activeDomain := activeDomain st; policies := d;
     newPolicyText := newPolicyText st; loading := loading st;
     dragActive := dragActive st |}.

Definition setNewPolicyText (st : State) (t : string) : State :=
  {| activeDomain := activeDomain st; policies := policies st;
     newPolicyText := t; loading := loading st;
     dragActive := dragActive st |}.

Definition setLoading (st : State) (b : bool) : State :=
  {| activeDomain := activeDomain st; policies := policies st;
     newPolicyText := newPolicyText st; loading := b;
     dragActive := dragActive st |}.

(** [loadPolicies]: a failed fetch is logged and the list kept. *)
Definition loadPolicies (st : State) (scr : Screen)
    (res : result (gmap string (list Policy))) : State * Screen :=
  match res with
  | Ok data => (setPolicies st data, scr)
  | Err e => (st, log "Error loading policies:" scr)
  end.

(** [handleAddPolicy]; [add] and [load] are the outcomes of [addPolicy]
    and of the [getPolicies] of the reload. *)
Definition handleAddPolicy (st : State) (scr : Screen)
    (add : result unit) (load : result (gmap string (list Policy))) : Run :=
  if negb (truthy (trim (newPolicyText st)))
  then {| state := st; screen := scr; calls := [] |}
  else
    let call := AddPolicy (activeDomain st) (trim (newPolicyText st)) in
    match add with
    | Ok _ =>
        let '(st1, scr1) := loadPolicies (setNewPolicyText st "") scr load in
        {| state := setLoading st1 false; screen := scr1;
           calls := [call; GetPolicies] |}
    | Err e =>
        {| state := setLoading st false;
           screen := log "Error adding policy:" scr;
           calls := [call] |}
    end.

(** [handleDeletePolicy]. *)
Definition handleDeletePolicy (st : State) (scr : Screen) (policyId : string)
    (del : result unit) (load : result (gmap string (list Policy))) : Run :=
  let call := DeletePolicy (activeDomain st) policyId in
  match del with
  | Ok _ =>
      let '(st1, scr1) := loadPolicies st scr load in
      {| state := setLoading st1 false; screen := scr1;
         calls := [call; GetPolicies] |}
  | Err e =>
      {| state := setLoading st false;
         screen := log "Error deleting policy:" scr;
         calls := [call] |}
  end.

(** [handleFileUpload]. *)
Definition handleFileUpload (st : State) (scr : Screen) (file : string)
    (up : result unit) (load : result (gmap string (list Policy))) : Run :=
  let call := UploadPolicyFile (activeDomain st) file in
  match up with
  | Ok _ =>
      let '(st1, scr1) := loadPolicies st scr load in
      {| state := setLoading st1 false; screen := scr1;
         calls := [call; GetPolicies] |}
  | Err e =>
      {| state := setLoading st false;
         screen := alert "Error uploading file. Please check the format."
                     (log "Error uploading file:" scr);
         calls := [call] |}
  end.

End PolicyManager.

(** ** Explanation editor (components/ExplanationEditor.tsx) *)

Module ExplanationEditor.

Record State := {
  explanation : string;
  loading : bool;
  error : option string
}.

Inductive Call :=
| OnSubmit (text : string)
| UpdateExplanation (applicationId text : string)
| OnSave
| OnClose.

Record Run := {
  state : State;
  screen : Screen;
  calls : list Call
}.

Definition emptyMessage : string := "Explanation cannot be empty".

Definition failedMessage : string :=
  "Failed to save explanation. Please try again.".

(** [handleSave]; [hasOnSubmit] tells whether the [onSubmit] prop was
    given (the override mode of the dashboard), [res] is the outcome
    of the awaited [onSubmit] or [updateExplanation]. *)
Definition handleSave (applicationId : string) (hasOnSubmit : bool)
    (st : State) (scr : Screen) (res : result unit) : Run :=
  if negb (truthy (trim (explanation st))) then
    {| state := {| explanation := explanation st; loading := loading st;
                   error := Some emptyMessage |};
       screen := scr; calls := [] |}
  else
    let call :=
      if hasOnSubmit then OnSubmit (trim (explanation st))
      else UpdateExplanation applicationId (trim (explanation st)) in
    match res with
    | Ok _ =>
        {| state := {| explanation := explanation st; loading := false;
                       error := None |};
           screen := scr; calls := [call; OnSave; OnClose] |}
    | Err e =>
        {| state := {| explanation := explanation st; loading := false;
                       error := Some failedMessage |};
           screen := log "Error saving explanation:" scr;
           calls := [call] |}
    end.

End ExplanationEditor.

(** ** Application workflow and decision store

    The service behind [lib/api] is not part of the sources at hand;
    this module follows the specification of the workflow (sections 3,
    4.1, 4.2 and 7). The required fields of a domain are the ones the
    customer page renders ([CustomerPage.formFields]). *)

Module Workflow.

Import CustomerPage.

Inductive Status := pending_ai | pending_human | completed.

Inductive Error :=
| ValidationError
| NotFound
| ClassificationError
| ConflictError.

(** The two statuses a reviewer can give. *)
Inductive HumanStatus := Approved | Denied.

Definition HumanStatus_string (h : HumanStatus) : string :=
  match h with
  | Approved => "Approved"
  | Denied => "Denied"
  end.

(** Modelled from the spec: the application record of section 3; the
    record type of the store is not in the sources. *)
Record AppRecord := {
  decision_id : string;
  domain : Domain;
  input_features : gmap string JSValue;
  applicant_name : option string;
  status : Status;
  model_output : ModelOutput;
  ai_result : option AiResult;
  explanation : Explanation;
  is_override : bool;
  timestamp : N
}.

Record Store := { records : gmap string AppRecord }.

Definition empty_store : Store := {| records := ∅ |}.

(** *** Type coercion of numeric fields *)

Definition digit (c : ascii) : option N :=
  let n := N_of_ascii c in
  if ((48 <=? n) && (n <=? 57))%N then Some (n - 48)%N else None.

(** Value of a string of decimal digits read after [acc]; [None] when
    a character is not a digit. *)
Fixpoint digits (s : string) (acc : N) : option N :=
  match s with
  | EmptyString => Some acc
  | String c r =>
      match digit c with
      | Some d => digits r (10 * acc + d)%N
      | None => None
      end
  end.

(** The text before the first dot, and the text after it if any. *)
Fixpoint split_dot (s : string) : string * option string :=
  match s with
  | EmptyString => (EmptyString, None)
  | String c r =>
      if Ascii.eqb c "."%char then (EmptyString, Some r)
      else let '(a, b) := split_dot r in (String c a, b)
  end.

Definition unsigned_number (s : string) : option Q :=
  let '(ip, fp) := split_dot s in
  if String.eqb ip "" then None
  else
    match digits ip 0, fp with
    | Some i, None => Some (inject_Z (Z.of_N i))
    | Some i, Some f =>
        if String.eqb f "" then None
        else
          match digits f 0 with
          | Some d =>
              Some (inject_Z (Z.of_N i)
                    + Qmake (Z.of_N d) (Pos.pow 10 (Pos.of_nat (String.length f))))%Q
          | None => None
          end
    | None, _ => None
    end.

(** Modelled from the spec: the parsing of a numeric field by the
    service, which is not in the sources ("numeric fields that do not
    parse"): a decimal numeral with an optional sign and an optional
    fraction. *)
Definition parse_number (s : string) : option Q :=
  match s with
  | String "-"%char r => Qopp <$> unsigned_number r
  | _ => unsigned_number s
  end.

(** Modelled from the spec: the type coercion of the service's
    validation, which is not in the sources. A payload value is coerced
    to the kind of its field, and only a numeric field can fail. *)
Definition coerce (k : InputKind) (v : JSValue) : option JSValue :=
  match k with
  | KNumber =>
      match v with
      | JNum q => Some (JNum q)
      | JStr s => JNum <$> parse_number s
      | JNaN => None
      end
  | _ => Some v
  end.

(** One required field against the payload. *)
Definition check_field (payload : gmap string JSValue)
    (f : string * InputKind) : option (string * JSValue) :=
  v ← payload !! f.1; v' ← coerce f.2 v; Some (f.1, v').

(** Modelled from the spec: the validation step of [Submit], which is
    not in the sources. The coerced required fields, [None] when one is
    missing or fails coercion. *)
Definition validate (d : Domain) (payload : gmap string JSValue)
    : option (list (string * JSValue)) :=
  mapM (check_field payload) (formFields d).

Definition name_of (payload : gmap string JSValue) : option string :=
  match payload !! "full_name" with
  | Some (JStr s) => Some s
  | _ => None
  end.

Definition pendingOutput : ModelOutput :=
  {| label := "Pending"; confidence := 0 |}.

(** Modelled from the spec: the [Submit] operation of the service
    (section 4.1, transition 1), which is not in the sources. The result
    pairs the store after the call with the answer. *)
Definition submit (s : Store) (d : Domain) (payload : gmap string JSValue)
    (now : N) : Store * (Error + AppRecord) :=
  match validate d payload with
  | None => (s, inl ValidationError)
  | Some coerced =>
      let id := fresh_string_of_set "app" (dom (records s)) in
      let r :=
        {| decision_id := id; domain := d;
           input_features := list_to_map coerced ∪ payload;
           applicant_name := name_of payload;
           status := pending_ai;
           model_output := pendingOutput;
           ai_result := None;
           explanation := {| summary := "" |};
           is_override := false;
           timestamp := now |} in
      ({| records := <[id := r]> (records s) |}, inr r)
  end.

(** Modelled from the spec: [get] of the store contract (section 4.2),
    which is not in the sources. *)
Definition get (s : Store) (id : string) : Error + AppRecord :=
  match records s !! id with
  | Some r => inr r
  | None => inl NotFound
  end.

Definition classified (r : AppRecord) (ai : AiResult) (clear_cut : bool)
    : AppRecord :=
  {| decision_id := decision_id r; domain := domain r;
     input_features := input_features r;
     applicant_name := applicant_name r;
     status := if clear_cut then completed else pending_human;
     model_output := {| label := d_status (decision ai);
                        confidence := d_confidence (decision ai) |};
     ai_result := Some ai;
     explanation := {| summary := d_reasoning (decision ai) |};
     is_override := is_override r;
     timestamp := timestamp r |}.

(** Modelled from the spec: the [Classify] step of the service
    (transition 2), which is not in the sources. [out] is the
    answer of the classifier, [threshold] the confidence cutoff of a
    clear-cut outcome. A failure of the classifier, and a record that
    is not in [pending_ai], leave the store as it is. *)
Definition classify (threshold : Q) (s : Store) (id : string)
    (out : result AiResult) : Store * (Error + unit) :=
  match records s !! id with
  | None => (s, inl NotFound)
  | Some r =>
      match status r, out with
      | pending_ai, Ok ai =>
          let clear_cut := Qle_bool threshold (d_confidence (decision ai)) in
          ({| records := <[id := classified r ai clear_cut]> (records s) |},
           inr tt)
      | pending_ai, Err _ => (s, inl ClassificationError)
      | _, _ => (s, inr tt)
      end
  end.

Definition decided (r : AppRecord) (h : HumanStatus) (text : string)
    : AppRecord :=
  {| decision_id := decision_id r; domain := domain r;
     input_features := input_features r;
     applicant_name := applicant_name r;
     status := completed;
     model_output := {| label := HumanStatus_string h;
                        confidence := confidence (model_output r) |};
     ai_result := ai_result r;
     explanation := {| summary := text |};
     is_override :=
       match ai_result r with
       | Some ai =>
           negb (String.eqb (toLowerCase (HumanStatus_string h))
                            (toLowerCase (d_status (decision ai))))
       | None => is_override r
       end;
     timestamp := timestamp r |}.

(** Modelled from the spec: the [HumanDecide] operation of the service
    (transition 3), which is not in the sources; deciding again a
    completed case rewrites status and explanation. *)
Definition human_decide (s : Store) (id : string) (h : HumanStatus)
    (text : string) : Store * (Error + unit) :=
  match records s !! id with
  | None => (s, inl NotFound)
  | Some r => ({| records := <[id := decided r h text]> (records s) |}, inr tt)
  end.

Definition edited (r : AppRecord) (text : string) : AppRecord :=
  {| decision_id := decision_id r; domain := domain r;
     input_features := input_features r;
     applicant_name := applicant_name r;
     status := status r;
     model_output := model_output r;
     ai_result := ai_result r;
     explanation := {| summary := text |};
     is_override := is_override r;
     timestamp := timestamp r |}.

(** Modelled from the spec: the [EditExplanation] operation of the
    service (transition 4), which is not in the sources: the
    [updateExplanation(id, text)] of the presentation boundary. *)
Definition editExplanation (s : Store) (id : string) (text : string)
    : Store * (Error + unit) :=
  match records s !! id with
  | None => (s, inl NotFound)
  | Some r => ({| records := <[id := edited r text]> (records s) |}, inr tt)
  end.

(** The operations of the workflow, as requests. *)
Inductive Op :=
| OpSubmit (d : Domain) (payload : gmap string JSValue) (now : N)
| OpClassify (id : string) (out : result AiResult)
| OpHumanDecide (id : string) (h : HumanStatus) (text : string)
| OpEditExplanation (id : string) (text : string).

Definition run_op (threshold : Q) (s : Store) (o : Op) : Store :=
  match o with
  | OpSubmit d payload now => (submit s d payload now).1
  | OpClassify id out => (classify threshold s id out).1
  | OpHumanDecide id h text => (human_decide s id h text).1
  | OpEditExplanation id text => (editExplanation s id text).1
  end.

(** The store after a history of requests, oldest first. *)
Definition run (threshold : Q) (ops : list Op) : Store :=
  foldl (run_op threshold) empty_store ops.

(** What a raised override flag says of a record. *)
Definition override_justified (r : AppRecord) : Prop :=
  is_override r = true ->
  status r = completed
  /\ exists ai h,
       ai_result r = Some ai
       /\ label (model_output r) = HumanStatus_string h
       /\ toLowerCase (HumanStatus_string h)
          <> toLowerCase (d_status (decision ai)).

Definition store_ok (s : Store) : Prop :=
  map_Forall (fun _ r => override_justified r) (records s).

End Workflow.

(** ** Sample data *)

Module Samples.

Definition mkCase (id lbl : string) (ai : option AiResult) : CaseData :=
  {| decision_id := id; domain := "loan";
     applicant_name := None; applicant_id := None;
     model_output := {| label := lbl; confidence := 0 |};
     ai_result := ai;
     explanation := {| summary := "" |};
     is_override := false |}.

Definition aiDenied : AiResult :=
  {| decision := {| d_status := "Denied";
                    d_reasoning := "Debt is high for the stated income.";
                    d_confidence := 82 # 100 |};
     alternative_reasoning := Some "Income was verified by hand.";
     counterfactuals := Some ["Lower the requested amount."] |}.

Definition loanCases : list CaseData :=
  [mkCase "a1" "Approved" None; mkCase "a2" "Pending" (Some aiDenied);
   mkCase "a3" "Denied" (Some aiDenied); mkCase "a4" "LOW RISK" None].

Definition sampleData : gmap string (list CaseData) :=
  {["loan" := loanCases]}.

Definition reviewing : Dashboard.State :=
  {| Dashboard.selectedCategory := Some "loan";
     Dashboard.categoryStates :=
       {["loan" := {| Dashboard.searchQuery := "";
                      Dashboard.activeCase := Some (mkCase "a2" "Pending" (Some aiDenied));
                      Dashboard.filter := Dashboard.Pending |}]};
     Dashboard.realData := sampleData;
     Dashboard.loading := false;
     Dashboard.explanationEditorState :=
       {| Dashboard.isOpen := false; Dashboard.mode := Dashboard.ModeEdit;
          Dashboard.initialText := ""; Dashboard.action := None |} |}.

Definition blank : Screen := {| console := []; alerts := [] |}.

Definition portalWaiting : CustomerPortal.State :=
  {| CustomerPortal.applicationType := Some "loan";
     CustomerPortal.formData := ∅;
     CustomerPortal.isSubmitting := false;
     CustomerPortal.submittedId := Some "a2";
     CustomerPortal.pollStatus := CustomerPortal.waiting;
     CustomerPortal.aiResult := None |}.

Definition addingPolicy : PolicyManager.State :=
  {| PolicyManager.activeDomain := "loan";
     PolicyManager.policies := ∅;
     PolicyManager.newPolicyText := "Decline when debt exceeds income";
     PolicyManager.loading := false;
     PolicyManager.dragActive := false |}.

Definition loanPayload : gmap string JSValue :=
  list_to_map
    [("full_name", JStr "Ada"); ("age", JNum 41); ("gender", JStr "F");
     ("marital_status", JStr "Single"); ("employment_years", JNum 9);
     ("employment_type", JStr "Permanent"); ("monthly_income", JStr "4200.50");
     ("existing_debt", JNum 12000); ("credit_score", JNum 550);
     ("loan_amount", JNum 50000); ("loan_purpose", JStr "Home")].

(** The loan scenario: submitted, classified as denied below the
    cutoff, then approved by a reviewer. *)
Definition overrideHistory : list Workflow.Op :=
  [Workflow.OpSubmit CustomerPage.loan loanPayload 0;
   Workflow.OpClassify "app" (Ok aiDenied);
   Workflow.OpHumanDecide "app" Workflow.Approved
     "Approved after manual income verification"].

Definition cutoff : Q := 9 # 10.

(** A [Number] for the samples: decimal numerals, [NaN] otherwise. *)
Definition Number (s : string) : JSValue :=
  match Workflow.parse_number s with
  | Some q => JNum q
  | None => JNaN
  end.

(** The loan form filled in with a credit score that is no number. *)
Definition badScoreForm : CustomerPage.State :=
  {| CustomerPage.domain := CustomerPage.loan;
     CustomerPage.loading := false;
     CustomerPage.success := None;
     CustomerPage.error := None;
     CustomerPage.formData :=
       list_to_map
         [("full_name", "Ada"); ("age", "41"); ("gender", "F");
          ("marital_status", "Single"); ("employment_years", "9");
          ("employment_type", "Permanent"); ("monthly_income", "4200.50");
          ("existing_debt", "12000"); ("credit_score", "abc");
          ("loan_amount", "50000"); ("loan_purpose", "Home")] |}.

End Samples.

(** ** Dashboard: per-category state and the override editor
    (components/EmployeeDashboard.tsx) *)

Module DashboardState.

Import Dashboard.

(** The argument of [updateState], a [Partial<CategoryState>]: for each
    key, the value given, if the key is given. *)
Record Updates := {
  u_searchQuery : option string;
  u_activeCase : option (option CaseData);
  u_filter : option FilterType
}.

(** [{ ...prev, ...updates }]. *)
Definition merge (prev : CategoryState) (u : Updates) : CategoryState :=
  {| searchQuery := default (searchQuery prev) (u_searchQuery u);
     activeCase := default (activeCase prev) (u_activeCase u);
     filter := default (filter prev) (u_filter u) |}.

(** [updateState]. *)
Definition updateState (st : State) (u : Updates) : State :=
  match selectedCategory st with
  | Some cat =>
      if truthy cat then
        {| selectedCategory := selectedCategory st;
           categoryStates :=
             <[cat := merge (default defaultCategoryState
                               (categoryStates st !! cat)) u]>
               (categoryStates st);
           realData := realData st;
           loading := loading st;
           explanationEditorState := explanationEditorState st |}
      else st
  | None => st
  end.

Definition setSelectedCategory (st : State) (c : option string) : State :=
  {| selectedCategory := c;
     categoryStates := categoryStates st;
     realData := realData st;
     loading := loading st;
     explanationEditorState := explanationEditorState st |}.

(** The three kinds of call sites of [updateState]. *)
Definition pickCase (c : CaseData) : Updates :=
  {| u_searchQuery := None; u_activeCase := Some (Some c); u_filter := None |}.

Definition pickFilter (f : FilterType) : Updates :=
  {| u_searchQuery := None; u_activeCase := None; u_filter := Some f |}.

Definition typeQuery (q : string) : Updates :=
  {| u_searchQuery := Some q; u_activeCase := None; u_filter := None |}.

Definition EditorMode_is_override (m : EditorMode) : bool :=
  match m with
  | ModeOverride => true
  | ModeEdit => false
  end.

(** The props the dashboard gives to the explanation editor. *)
Record EditorProps := {
  applicationId : string;
  currentExplanation : string;
  isOverride : bool;
  hasOnSubmit : bool
}.

(** The editor is rendered when it is open and a case is active. *)
Definition editorProps (st : State) : option EditorProps :=
  if isOpen (explanationEditorState st) then
    match activeCase (getCurrentState st) with
    | Some c =>
        let override := EditorMode_is_override (mode (explanationEditorState st)) in
        Some {| applicationId := decision_id c;
                currentExplanation := initialText (explanationEditorState st);
                isOverride := override || is_override c;
                hasOnSubmit := override |}
    | None => None
    end
  else None.

(** The [onSubmit] callback given in override mode: the API calls it
    makes for the text. *)
Definition onSubmit (st : State) (text : string) : list ApiCall :=
  match activeCase (getCurrentState st),
        action (explanationEditorState st), selectedCategory st with
  | Some c, Some a, Some cat =>
      if truthy cat
      then [UpdateApplicationStatus (decision_id c) cat a text]
      else []
  | _, _, _ => []
  end.

(** Amber, the colour of a pending case. *)
Definition pendingColor : string := "#f59e0b".

(** [statusColor] of a card of the case list; [positive] and [negative]
    are the colours of the category in [CATEGORY_CONFIG]. *)
Definition statusColor (positive negative : string) (c : CaseData) : string :=
  if is_pending c then pendingColor
  else if is_positive c then positive else negative.

(** The [onSave] prop given to the editor: the reload after a save;
    [apps] is the outcome of [api.getApplications]. *)
Definition onSave (st : State)
    (apps : result (gmap string (list CaseData))) : Run :=
  match apps with
  | Err e => {| state := st; calls := [GetApplications]; uncaught := Some e |}
  | Ok newData =>
      let st1 := setRealData st newData in
      match selectedCategory st, activeCase (getCurrentState st) with
      | Some cat, Some c =>
          if truthy cat then
            match newData !! cat with
            | None =>
                {| state := st1; calls := [GetApplications];
                   uncaught := Some "TypeError" |}
            | Some l =>
                {| state :=
                     match List.find
                             (fun x => String.eqb (decision_id x) (decision_id c)) l
                     with
                     | Some updatedCase => updateState st1 (pickCase updatedCase)
                     | None => st1
                     end;
                   calls := [GetApplications]; uncaught := None |}
            end
          else {| state := st1; calls := [GetApplications]; uncaught := None |}
      | _, _ => {| state := st1; calls := [GetApplications]; uncaught := None |}
      end
  end.

(** The [onClose] prop given to the editor. *)
Definition onClose (st : State) : State :=
  setExplanationEditorState st
    {| isOpen := false;
       mode := mode (explanationEditorState st);
       initialText := initialText (explanationEditorState st);
       action := action (explanationEditorState st) |}.

(** The [disabled] attribute of the "Save Changes" button. *)
Definition saveDisabled (ed : ExplanationEditor.State) : bool :=
  ExplanationEditor.loading ed
  || negb (truthy (trim (ExplanationEditor.explanation ed))).

(** A click on "Save Changes" in the editor the dashboard renders:
    [handleSave] runs when the editor is rendered and the button is not
    disabled; [res] is the outcome of the awaited call. *)
Definition saveClick (st : State) (ed : ExplanationEditor.State)
    (scr : Screen) (res : result unit) : option ExplanationEditor.Run :=
  props ← editorProps st;
  if saveDisabled ed then None
  else Some (ExplanationEditor.handleSave (applicationId props)
               (hasOnSubmit props) ed scr res).

(** A request that leaves the browser: a call of the dashboard on
    [api], or the editor's own [updateExplanation]. *)
Inductive Request :=
| ApiRequest (c : ApiCall)
| ExplanationRequest (applicationId text : string).

(** The requests a run of the editor ends in, through the props of the
    dashboard; [apps] is the outcome of the reload of [onSave]. *)
Definition sentByEditor (st : State) (run : ExplanationEditor.Run)
    (apps : result (gmap string (list CaseData))) : list Request :=
  flat_map (fun c => match c with
                     | ExplanationEditor.OnSubmit t => ApiRequest <$> onSubmit st t
                     | ExplanationEditor.UpdateExplanation id t =>
                         [ExplanationRequest id t]
                     | ExplanationEditor.OnSave =>
                         ApiRequest <$> calls (onSave st apps)
                     | ExplanationEditor.OnClose => []
                     end)
    (ExplanationEditor.calls run).

End DashboardState.

(** ** Customer portal: the poll loop and the screens
    (components/CustomerPortal.tsx) *)

Module PortalFlow.

Import CustomerPortal.

(** An observation that ends the polling: a status whose label is not
    the sentinel. *)
Definition terminal (o : result (option CaseData)) : bool :=
  match o with
  | Ok (Some status) => negb (String.eqb (label (model_output status)) "Pending")
  | _ => false
  end.

Definition failed (o : result (option CaseData)) : bool :=
  match o with
  | Err _ => true
  | Ok _ => false
  end.

(** The poll loop when every fetch has settled before the next tick:
    the callback runs on the outcomes of the successive fetches while
    the effect keeps its timer registered. *)
Fixpoint pollRun (st : State) (scr : Screen)
    (outcomes : list (result (option CaseData))) : State * Screen :=
  match outcomes with
  | [] => (st, scr)
  | o :: rest =>
      match pollingEffect st with
      | Some _ => pollRun (pollTick st scr o).1 (pollTick st scr o).2 rest
      | None => (st, scr)
      end
  end.

(** The answers of the fetches in the order in which they settle. The
    timer starts a fetch every period whether or not the one before has
    settled, and the rest of a callback runs when its fetch settles,
    also after the timer is gone: each answer is applied to the state
    of its moment. *)
Definition settleAll (st : State) (scr : Screen)
    (answers : list (result (option CaseData))) : State * Screen :=
  foldl (fun acc o => pollTick acc.1 acc.2 o) (st, scr) answers.

(** The result the callback records for a status. *)
Definition resultOf (status : CaseData) : AiResultView.AiResultType :=
  {| AiResultView.decision :=
       AiResultView.DString (label (model_output status));
     AiResultView.summary := summary (explanation status);
     AiResultView.counterfactuals := ai_result status ≫= counterfactuals |}.

(** The last status among the answers that ends the polling. *)
Definition lastTerminal (answers : list (result (option CaseData)))
    : option CaseData :=
  foldl (fun acc o => match o with
                      | Ok (Some status) =>
                          if terminal o then Some status else acc
                      | _ => acc
                      end) None answers.

Inductive View := ResultScreen | WaitingScreen | FormScreen | SelectionScreen.

(** Which of the four screens the component returns. *)
Definition view (st : State) : View :=
  match aiResult st with
  | Some _ => ResultScreen
  | None =>
      if PollStatus_eqb (pollStatus st) waiting then WaitingScreen
      else if truthy_opt (applicationType st) then FormScreen
      else SelectionScreen
  end.

(** The names of the fields of type number in a form. *)
Definition numberNames (fields : list FormField) : list string :=
  name <$> List.filter
             (fun f => match type f with TNumber => true | _ => false end)
             fields.

End PortalFlow.

(** ** Earlier review console: domain filter and batch upload *)

Module ReviewTools.

Import ReviewConsole.

Definition DOMAINS : list string := ["loan"; "credit"; "insurance"; "job"].

(** [filteredApps]. *)
Definition filteredApps (st : State) : list Application :=
  List.filter
    (fun app => if String.eqb (filterDomain st) "all" then true
                else String.eqb (domain app) (filterDomain st))
    (applications st).

(** What [fetch] resolves to: any HTTP answer, [ok] or not. *)
Record Response := {
  ok : bool;
  http_status : Z
}.

Definition batchUrl (type : string) : string :=
  "http://localhost:8000/applications/batch_upload?decision_type=" ++ type.

(** [handleFileUpload] of the console; [files] are the files of the
    input, [answer] what [prompt] returned ([None] when cancelled),
    [res] the outcome of [fetch] and [reload] that of the
    [getApplications] of the refresh. The last component is the request
    made: the URL and the file posted. *)
Definition handleFileUpload (st : State) (scr : Screen) (files : list string)
    (answer : option string) (res : result Response)
    (reload : result (list Application))
    : State * Screen * option (string * string) :=
  match files with
  | [] => (st, scr, None)
  | file :: _ =>
      let type := or_else answer "loan" in
      let request := Some (batchUrl type, file) in
      match res with
      | Ok _ =>
          (fetchApplications st
             (alert "Batch processed successfully!" scr) reload, request)
      | Err e => (st, alert "Upload failed" (log e scr), request)
      end
  end.

End ReviewTools.

(** ** Dashboard: the listing poll (components/EmployeeDashboard.tsx) *)

Module DashboardPoll.

(** The effect registers its timer at mount, whatever the state. *)
Definition pollingEffect (st : Dashboard.State) : option Z :=
  Some Dashboard.listPollInterval.

(** One run of the timer callback [loadData] with the screen: the
    callback has no [try], writes nothing to the console and alerts
    nothing. *)
Definition loadTick (st : Dashboard.State) (scr : Screen)
    (res : result (gmap string (list CaseData))) : Dashboard.Run * Screen :=
  (Dashboard.loadData st res, scr).

End DashboardPoll.

(** ** More sample data *)

Module MoreSamples.

Definition approvedA2 : CaseData :=
  {| decision_id := "a2"; domain := "loan";
     applicant_name := None; applicant_id := None;
     model_output := {| label := "Approved"; confidence := 0 |};
     ai_result := Some Samples.aiDenied;
     explanation := {| summary := "Income was verified by hand." |};
     is_override := true |}.

Definition reloaded : gmap string (list CaseData) :=
  {["loan" := [Samples.mkCase "a1" "Approved" None; approvedA2]]}.

Definition typedDenial : ExplanationEditor.State :=
  {| ExplanationEditor.explanation := "  Debt above policy limit. ";
     ExplanationEditor.loading := false;
     ExplanationEditor.error := None |}.

Definition loanForm : list CustomerPortal.FormField :=
  [{| CustomerPortal.name := "full_name"; CustomerPortal.type := CustomerPortal.TText |};
   {| CustomerPortal.name := "age"; CustomerPortal.type := CustomerPortal.TNumber |};
   {| CustomerPortal.name := "gender"; CustomerPortal.type := CustomerPortal.TSelect |};
   {| CustomerPortal.name := "credit_score"; CustomerPortal.type := CustomerPortal.TNumber |}].

Definition mkApp (i d : string) : ReviewConsole.Application :=
  {| ReviewConsole.id := i; ReviewConsole.domain := d;
     ReviewConsole.full_name := None; ReviewConsole.ai_result := None |}.

Definition queue : ReviewConsole.State :=
  {| ReviewConsole.activeTab := ReviewConsole.pending;
     ReviewConsole.applications :=
       [mkApp "p1" "loan"; mkApp "p2" "job"; mkApp "p3" "loan"];
     ReviewConsole.selectedApp := Some (mkApp "p2" "job");
     ReviewConsole.loading := false;
     ReviewConsole.filterDomain := "loan" |}.

End MoreSamples.

(** * Properties *)

(** ** String primitives *)

Lemma includes_empty (s : string) : includes s "" = true.
Proof. destruct s; reflexivity. Qed.

Lemma truthy_true (s : string) : truthy s = true <-> s <> "".
Proof.
  unfold truthy. destruct (String.eqb_spec s ""); simpl; split; congruence.
Qed.

Lemma truthy_false (s : string) : truthy s = false <-> s = "".
Proof.
  unfold truthy. destruct (String.eqb_spec s ""); simpl; split; congruence.
Qed.

Lemma arr_includes_In (l : list string) (x : string) :
  arr_includes l x = true <-> In x l.
Proof.
  unfold arr_includes. rewrite existsb_exists. split.
  - intros (y & Hy & He). apply String.eqb_eq in He. now subst.
  - intros H. exists x. split; [assumption | apply String.eqb_refl].
Qed.

Lemma or_else_spec (o : option string) (d : string) :
  (exists s, o = Some s /\ s <> "" /\ or_else o d = s)
  \/ ((o = None \/ o = Some "") /\ or_else o d = d).
Proof.
  destruct o as [s|]; simpl; [|right; auto].
  destruct (truthy s) eqn:E.
  - left. exists s. apply truthy_true in E. auto.
  - right. apply truthy_false in E. subst. auto.
Qed.

Lemma filter_all {A} (p : A -> bool) (l : list A) :
  (forall x, p x = true) -> List.filter p l = l.
Proof.
  intros H. induction l as [|a l IH]; simpl; [reflexivity|].
  rewrite H, IH. reflexivity.
Qed.

(** ** Labels: pending, positive, declined *)

Section Labels.

Import Dashboard.

Lemma is_pending_label (c : CaseData) :
  is_pending c = true <-> label (model_output c) = "Pending".
Proof. unfold is_pending. apply String.eqb_eq. Qed.

Lemma is_positive_label (c : CaseData) :
  is_positive c = true <->
  In (toLowerCase (label (model_output c)))
     ["approved"; "hired"; "low risk"; "low_risk"].
Proof. unfold is_positive. apply arr_includes_In. Qed.

(** The sentinel is not a positive term: the two counted classes are
    disjoint. *)
Lemma pending_not_positive (c : CaseData) :
  is_pending c = true -> is_positive c = false.
Proof.
  intros H. apply is_pending_label in H.
  unfold is_positive. rewrite H. reflexivity.
Qed.

Lemma decided_filter_Approved (c : CaseData) :
  decided_filter Approved c = is_positive c.
Proof.
  unfold decided_filter. destruct (is_pending c) eqn:E; [|reflexivity].
  symmetry. now apply pending_not_positive.
Qed.

Lemma decided_filter_Denied (c : CaseData) :
  decided_filter Denied c = negb (is_pending c) && negb (is_positive c).
Proof. unfold decided_filter. destruct (is_pending c); reflexivity. Qed.

Lemma matches_search_empty (c : CaseData) : matches_search "" c = true.
Proof. unfold matches_search. now rewrite includes_empty. Qed.

(** The three classes cover a list without overlap. *)
Lemma count_partition (data : list CaseData) :
  count is_pending data + count is_positive data
  + count (fun c => negb (is_pending c) && negb (is_positive c)) data
  = Z.of_nat (length data).
Proof.
  unfold count. induction data as [|c data IH]; [reflexivity|].
  simpl. destruct (is_pending c) eqn:Ep.
  - rewrite (pending_not_positive c Ep). simpl. lia.
  - destruct (is_positive c); simpl; lia.
Qed.

End Labels.

(** ** Dashboard: statistics and case list *)

(** C7. For every list of records, [getStats] counts as pending the
    records labelled exactly "Pending", as approved the records whose
    lowercased label is one of approved, hired, low risk, low_risk, and
    sets declined to total - approved - pending; declined is then the
    number of records that are neither pending nor positive, and the
    three counts sum to the total. *)
Theorem getStats_partition (data : list CaseData) (categoryId : string) :
  let s := Dashboard.getStats data categoryId in
  Dashboard.total s = Z.of_nat (length data)
  /\ Dashboard.pending s =
       Z.of_nat (length (List.filter
         (fun d => String.eqb (label (model_output d)) "Pending") data))
  /\ Dashboard.approved s =
       Z.of_nat (length (List.filter
         (fun d => arr_includes ["approved"; "hired"; "low risk"; "low_risk"]
                     (toLowerCase (label (model_output d)))) data))
  /\ Dashboard.declined s
       = Dashboard.total s - Dashboard.approved s - Dashboard.pending s
  /\ Dashboard.declined s =
       Z.of_nat (length (List.filter
         (fun d => negb (String.eqb (label (model_output d)) "Pending")
                   && negb (arr_includes
                              ["approved"; "hired"; "low risk"; "low_risk"]
                              (toLowerCase (label (model_output d))))) data))
  /\ Dashboard.pending s + Dashboard.approved s + Dashboard.declined s
       = Dashboard.total s.
Proof.
  pose proof (count_partition data) as P.
  unfold Dashboard.count, Dashboard.is_pending, Dashboard.is_positive,
    Dashboard.positiveTerms in P.
  unfold Dashboard.getStats, Dashboard.count, Dashboard.is_pending,
    Dashboard.is_positive, Dashboard.positiveTerms.
  cbn [Dashboard.total Dashboard.pending Dashboard.approved Dashboard.declined].
  repeat split; lia.
Qed.

(** C1. With an empty search query, for every table of records and
    every category: the filter "Approved" keeps exactly the records whose
    lowercased label is one of approved, hired, low risk, low_risk; the
    filter "Pending" exactly the records labelled "Pending"; the filter
    "Denied" exactly the records that are neither. *)
Theorem filteredCases_correct
    (realData : gmap string (list CaseData)) (category : string) :
  category <> "" ->
  let cases := default [] (realData !! category) in
  Dashboard.filteredCases (Some category) realData "" Dashboard.Approved
    = List.filter
        (fun c => arr_includes ["approved"; "hired"; "low risk"; "low_risk"]
                    (toLowerCase (label (model_output c)))) cases
  /\ Dashboard.filteredCases (Some category) realData "" Dashboard.Pending
    = List.filter
        (fun c => String.eqb (label (model_output c)) "Pending") cases
  /\ Dashboard.filteredCases (Some category) realData "" Dashboard.Denied
    = List.filter
        (fun c => negb (String.eqb (label (model_output c)) "Pending")
                  && negb (arr_includes
                             ["approved"; "hired"; "low risk"; "low_risk"]
                             (toLowerCase (label (model_output c))))) cases.
Proof.
  intros Hne cases. unfold Dashboard.filteredCases.
  apply truthy_true in Hne. cbn [truthy_opt]. rewrite Hne.
  cbn [negb mbind option_bind]. fold cases.
  rewrite !(filter_all (Dashboard.matches_search "")) by apply matches_search_empty.
  split; [|split].
  - apply List.filter_ext. intros c. apply decided_filter_Approved.
  - reflexivity.
  - apply List.filter_ext. intros c. apply decided_filter_Denied.
Qed.

(** ** Dashboard: the approve action *)

Lemma actionExplanation_cases (fallback own : string) (c : CaseData) :
  (forall ai, ai_result c = Some ai ->
     toLowerCase (d_status (decision ai)) = own ->
     Dashboard.actionExplanation fallback own c = d_reasoning (decision ai))
  /\ (forall ai alt, ai_result c = Some ai ->
        toLowerCase (d_status (decision ai)) <> own ->
        alternative_reasoning ai = Some alt -> alt <> "" ->
        Dashboard.actionExplanation fallback own c = alt)
  /\ (ai_result c = None
      \/ (exists ai, ai_result c = Some ai
            /\ toLowerCase (d_status (decision ai)) <> own
            /\ (alternative_reasoning ai = None
                \/ alternative_reasoning ai = Some "")) ->
      Dashboard.actionExplanation fallback own c = fallback).
Proof.
  unfold Dashboard.actionExplanation. repeat split.
  - intros ai -> <-. now rewrite String.eqb_refl.
  - intros ai alt -> Hs Ha Hne. apply String.eqb_neq in Hs. rewrite Hs, Ha.
    simpl. apply truthy_true in Hne. now rewrite Hne.
  - intros [-> | (ai & -> & Hs & Ha)]; [reflexivity|].
    apply String.eqb_neq in Hs. rewrite Hs.
    destruct Ha as [-> | ->]; reflexivity.
Qed.

(** C9. For every Approved action on an active case of a selected
    category, the first API call is [updateApplicationStatus] on that
    case, and its explanation is the AI's reasoning when the AI result is
    present with a status that lowercases to "approved"; the alternative
    reasoning when the AI result is present with another status and the
    alternative reasoning is non-empty; and the fixed manual-approval
    text otherwise, also when there is no AI result. *)
Theorem handleAction_approval_explanation
    (st : Dashboard.State) (category : string) (c : CaseData)
    (upd : result unit) (apps : result (gmap string (list CaseData))) :
  Dashboard.selectedCategory st = Some category ->
  category <> "" ->
  Dashboard.activeCase (Dashboard.getCurrentState st) = Some c ->
  exists explanation,
    head (Dashboard.calls
            (Dashboard.handleAction st Dashboard.ActionApproved upd apps))
      = Some (Dashboard.UpdateApplicationStatus (decision_id c) category
                Dashboard.ActionApproved explanation)
    /\ (forall ai, ai_result c = Some ai ->
          toLowerCase (d_status (decision ai)) = "approved" ->
          explanation = d_reasoning (decision ai))
    /\ (forall ai alt, ai_result c = Some ai ->
          toLowerCase (d_status (decision ai)) <> "approved" ->
          alternative_reasoning ai = Some alt -> alt <> "" ->
          explanation = alt)
    /\ (ai_result c = None
        \/ (exists ai, ai_result c = Some ai
              /\ toLowerCase (d_status (decision ai)) <> "approved"
              /\ (alternative_reasoning ai = None
                  \/ alternative_reasoning ai = Some "")) ->
        explanation
          = "Manually approved by auditor based on provided evidence.").
Proof.
  intros Hsel Hne Hact.
  exists (Dashboard.actionExplanation Dashboard.manualApproval "approved" c).
  split; [|apply actionExplanation_cases].
  unfold Dashboard.handleAction. rewrite Hsel, Hact.
  apply truthy_true in Hne. rewrite Hne. cbn [negb].
  destruct upd as [u|e]; [|reflexivity].
  destruct apps as [newData|e]; [|reflexivity].
  destruct (newData !! category); reflexivity.
Qed.

(** ** Result screen *)


(** ** Pollers *)

Lemma pollingEffect_waiting (st : CustomerPortal.State) (p : Z) :
  CustomerPortal.pollingEffect st = Some p ->
  CustomerPortal.pollStatus st = CustomerPortal.waiting /\ p = 2000.
Proof.
  unfold CustomerPortal.pollingEffect.
  destruct (CustomerPortal.pollStatus st); simpl; try discriminate.
  destruct (truthy_opt _ && truthy_opt _); [|discriminate].
  intros [= <-]. split; reflexivity.
Qed.

(** C5. The status poller runs its callback every 2000 ms while the
    portal is waiting (the listing poller every 5000 ms). On a tick that
    observes a status, the portal leaves the waiting state exactly when
    the observed label differs from "Pending", and it then records the
    label, summary and counterfactuals as the result and stops polling;
    on a tick that observes "Pending" the state is unchanged and the
    timer stays registered. *)
Theorem pollTick_terminal (st : CustomerPortal.State) (scr : Screen)
    (status : CaseData) :
  CustomerPortal.pollingEffect st = Some 2000 ->
  let st' := (CustomerPortal.pollTick st scr (Ok (Some status))).1 in
  let scr' := (CustomerPortal.pollTick st scr (Ok (Some status))).2 in
  CustomerPortal.statusPollInterval = 2000
  /\ ReviewConsole.listPollInterval = 5000
  /\ Dashboard.listPollInterval = 5000
  /\ (CustomerPortal.pollStatus st' <> CustomerPortal.waiting
      <-> label (model_output status) <> "Pending")
  /\ (label (model_output status) <> "Pending" ->
      CustomerPortal.pollStatus st' = CustomerPortal.completed
      /\ CustomerPortal.aiResult st'
         = Some {| AiResultView.decision :=
                     AiResultView.DString (label (model_output status));
                   AiResultView.summary := summary (explanation status);
                   AiResultView.counterfactuals :=
                     ai_result status ≫= counterfactuals |}
      /\ CustomerPortal.pollingEffect st' = None)
  /\ (label (model_output status) = "Pending" ->
      st' = st /\ scr' = scr
      /\ CustomerPortal.pollingEffect st' = Some 2000).
Proof.
  intros Heff st' scr'.
  destruct (pollingEffect_waiting _ _ Heff) as [Hw _].
  subst st' scr'. unfold CustomerPortal.pollTick.
  destruct (String.eqb_spec (label (model_output status)) "Pending") as [E|E];
    cbn [negb fst snd].
  - repeat split; try congruence; try tauto.
  - do 3 (split; [reflexivity|]). split; [|split].
    + cbn [CustomerPortal.pollStatus]. split; [intros _; exact E | discriminate].
    + intros _. repeat split; reflexivity.
    + intros Hp. contradiction.
Qed.

(** The two pollers that take a failed fetch: it is logged and goes no
    further.
    For the status poller the component state is unchanged, nothing is
    alerted, one console line is written and the timer stays registered.
    For the listing poller the polled list, the tab, the selection and
    the domain filter are unchanged, the busy flag is cleared, nothing
    is alerted, one console line is written and the timer stays
    registered. *)
Theorem poll_failure_swallowed :
  (forall (st : CustomerPortal.State) (scr : Screen) (e : string),
     let r := CustomerPortal.pollTick st scr (Err e) in
     r.1 = st
     /\ alerts r.2 = alerts scr
     /\ console r.2 = (console scr ++ ["Polling Error"])%list
     /\ CustomerPortal.pollingEffect r.1 = CustomerPortal.pollingEffect st)
  /\ (forall (st : ReviewConsole.State) (scr : Screen) (e : string),
        let r := ReviewConsole.fetchApplications st scr (Err e) in
        ReviewConsole.applications r.1 = ReviewConsole.applications st
        /\ ReviewConsole.activeTab r.1 = ReviewConsole.activeTab st
        /\ ReviewConsole.selectedApp r.1 = ReviewConsole.selectedApp st
        /\ ReviewConsole.filterDomain r.1 = ReviewConsole.filterDomain st
        /\ ReviewConsole.loading r.1 = false
        /\ alerts r.2 = alerts scr
        /\ console r.2 = (console scr ++ [e])%list
        /\ ReviewConsole.pollingEffect r.1 = Some 5000).
Proof.
  split; intros st scr e; cbn; repeat split; reflexivity.
Qed.


(** ** Failed mutations *)

(** A failed [reviewApplication] is logged and alerted. *)
Lemma handleDecision_failure_alerted (st : ReviewConsole.State) (scr : Screen)
    (d : ReviewConsole.ReviewDecision) (e : string) :
  is_Some (ReviewConsole.selectedApp st) ->
  alerts (ReviewConsole.handleDecision st scr d (Err e)).1.2
    = (alerts scr ++ ["Failed to submit decision. Please refresh."])%list.
Proof.
  intros [app Happ]. unfold ReviewConsole.handleDecision. rewrite Happ.
  reflexivity.
Qed.

(** A failed save of the editor sets the error line under the text. *)
Lemma handleSave_failure_shown (id : string) (sub : bool)
    (st : ExplanationEditor.State) (scr : Screen) (e : string) :
  trim (ExplanationEditor.explanation st) <> "" ->
  ExplanationEditor.error
    (ExplanationEditor.state (ExplanationEditor.handleSave id sub st scr (Err e)))
    = Some "Failed to save explanation. Please try again.".
Proof.
  intros H. apply truthy_true in H. unfold ExplanationEditor.handleSave.
  rewrite H. reflexivity.
Qed.

(** In edit mode the editor sends the trimmed text, and nothing when the
    text is blank. *)
Lemma handleSave_sends_trimmed (id : string) (st : ExplanationEditor.State)
    (scr : Screen) (res : result unit) :
  head (ExplanationEditor.calls (ExplanationEditor.handleSave id false st scr res))
    = if truthy (trim (ExplanationEditor.explanation st))
      then Some (ExplanationEditor.UpdateExplanation id
                   (trim (ExplanationEditor.explanation st)))
      else None.
Proof.
  unfold ExplanationEditor.handleSave.
  destruct (truthy (trim (ExplanationEditor.explanation st))); [|reflexivity].
  destruct res; reflexivity.
Qed.

(** A failed submission from the portal is logged and alerted. *)
Lemma handleFormSubmit_failure_alerted (Number : string -> JSValue)
    (fields : gmap string (list CustomerPortal.FormField))
    (st : CustomerPortal.State) (scr : Screen) (e : string) :
  alerts (CustomerPortal.handleFormSubmit Number fields st scr (Err e)).1.2
    = (alerts scr ++ ["Submission failed. Please try again."])%list.
Proof. reflexivity. Qed.

(** A failed submission from the customer page sets the error banner. *)
Lemma handleSubmit_failure_shown (Number : string -> JSValue)
    (st : CustomerPage.State) (scr : Screen) (e : string) :
  exists msg,
    CustomerPage.error (CustomerPage.handleSubmit Number st scr (Err e)).1.1
      = Some msg /\ msg <> "".
Proof.
  cbn. destruct (truthy e) eqn:E; eexists; (split; [reflexivity|]).
  - now apply truthy_true.
  - discriminate.
Qed.

(** A failed policy-file upload is logged and alerted. *)
Lemma handleFileUpload_failure_alerted (st : PolicyManager.State) (scr : Screen)
    (file e : string) (load : result (gmap string (list PolicyManager.Policy))) :
  alerts (PolicyManager.screen
            (PolicyManager.handleFileUpload st scr file (Err e) load))
    = (alerts scr ++ ["Error uploading file. Please check the format."])%list.
Proof. reflexivity. Qed.

(** A failed [addPolicy] is logged only: no alert, and the component
    state is the one before the click. *)
Lemma handleAddPolicy_failure_logged (st : PolicyManager.State) (scr : Screen)
    (e : string) (load : result (gmap string (list PolicyManager.Policy))) :
  let r := PolicyManager.handleAddPolicy st scr (Err e) load in
  alerts (PolicyManager.screen r) = alerts scr
  /\ (PolicyManager.state r = PolicyManager.setLoading st false
      \/ PolicyManager.state r = st).
Proof.
  unfold PolicyManager.handleAddPolicy.
  destruct (truthy (trim (PolicyManager.newPolicyText st))); cbn; auto.
Qed.

(** A failed [deletePolicy] is logged only. *)
Lemma handleDeletePolicy_failure_logged (st : PolicyManager.State)
    (scr : Screen) (policyId e : string)
    (load : result (gmap string (list PolicyManager.Policy))) :
  let r := PolicyManager.handleDeletePolicy st scr policyId (Err e) load in
  alerts (PolicyManager.screen r) = alerts scr
  /\ console (PolicyManager.screen r)
     = (console scr ++ ["Error deleting policy:"])%list
  /\ PolicyManager.state r = PolicyManager.setLoading st false.
Proof. cbn. auto. Qed.

(** A failed [updateApplicationStatus] of the approve button is taken by
    no handler: the state is the one before the click. *)
Lemma handleAction_failure_uncaught (st : Dashboard.State) (e : string)
    (apps : result (gmap string (list CaseData))) :
  Dashboard.state
    (Dashboard.handleAction st Dashboard.ActionApproved (Err e) apps) = st.
Proof.
  unfold Dashboard.handleAction.
  destruct (Dashboard.selectedCategory st) as [cat|]; [|reflexivity].
  destruct (Dashboard.activeCase _); [|reflexivity].
  destruct (truthy cat); reflexivity.
Qed.

(** C8. With a policy text typed in and a failing [addPolicy] call,
    [handleAddPolicy] writes one console line and alerts nothing; the
    component state, which has no error field, is the one before the
    click. *)
Theorem handleAddPolicy_failure_silent :
  let r := PolicyManager.handleAddPolicy Samples.addingPolicy Samples.blank
             (Err "Network Error") (Ok ∅) in
  PolicyManager.calls r
    = [PolicyManager.AddPolicy "loan" "Decline when debt exceeds income"]
  /\ alerts (PolicyManager.screen r) = []
  /\ console (PolicyManager.screen r) = ["Error adding policy:"]
  /\ PolicyManager.state r = Samples.addingPolicy.
Proof. repeat split; reflexivity. Qed.

(** ** Workflow: the override flag *)

Section Override.

Import Workflow.

Lemma store_ok_empty : store_ok empty_store.
Proof. apply map_Forall_empty. Qed.

Lemma submit_ok s d payload now :
  store_ok s -> store_ok (submit s d payload now).1.
Proof.
  intros H. unfold submit. destruct (validate d payload); [|exact H].
  apply map_Forall_insert_2; [|exact H]. intros Hov. discriminate Hov.
Qed.

Lemma classify_ok threshold s id out :
  store_ok s -> store_ok (classify threshold s id out).1.
Proof.
  intros H. unfold classify.
  destruct (records s !! id) as [r|] eqn:Hr; [|exact H].
  destruct (status r) eqn:Hs; try exact H.
  destruct out as [ai|e]; [|exact H].
  apply map_Forall_insert_2; [|exact H].
  intros Hov. cbn in Hov.
  destruct (H id r Hr Hov) as [Hc _]. congruence.
Qed.

Lemma human_decide_ok s id h text :
  store_ok s -> store_ok (human_decide s id h text).1.
Proof.
  intros H. unfold human_decide.
  destruct (records s !! id) as [r|] eqn:Hr; [|exact H].
  apply map_Forall_insert_2; [|exact H].
  intros Hov. cbn in Hov. split; [reflexivity|].
  destruct (ai_result r) as [ai|] eqn:Hai.
  - exists ai, h. cbn. rewrite Hai. repeat split.
    apply negb_true_iff, String.eqb_neq in Hov. exact Hov.
  - destruct (H id r Hr Hov) as (_ & ai & _ & Hai' & _). congruence.
Qed.

Lemma editExplanation_ok s id text :
  store_ok s -> store_ok (editExplanation s id text).1.
Proof.
  intros H. unfold editExplanation.
  destruct (records s !! id) as [r|] eqn:Hr; [|exact H].
  apply map_Forall_insert_2; [|exact H].
  intros Hov. exact (H id r Hr Hov).
Qed.

Lemma run_op_ok threshold s o : store_ok s -> store_ok (run_op threshold s o).
Proof.
  destruct o; cbn [run_op];
    auto using submit_ok, classify_ok, human_decide_ok, editExplanation_ok.
Qed.

Lemma foldl_run_op_ok threshold ops :
  forall s, store_ok s -> store_ok (foldl (run_op threshold) s ops).
Proof.
  induction ops as [|o ops IH]; intros s H; [exact H|].
  cbn [foldl]. apply IH, run_op_ok, H.
Qed.

Lemma run_ok threshold ops : store_ok (run threshold ops).
Proof. apply foldl_run_op_ok, store_ok_empty. Qed.

End Override.

(** C2. In every store the workflow can reach, a record whose
    [is_override] is true is completed, has an AI result, and carries a
    reviewer's status as its label that differs, ignoring case, from the
    status of the AI result. [HumanDecide] on a record with an AI result
    sets the flag to the case-insensitive difference of the two
    statuses. *)
Theorem is_override_sound (threshold : Q) :
  (forall (ops : list Workflow.Op) (id : string) (r : Workflow.AppRecord),
     Workflow.records (Workflow.run threshold ops) !! id = Some r ->
     Workflow.is_override r = true ->
     Workflow.status r = Workflow.completed
     /\ exists ai h,
          Workflow.ai_result r = Some ai
          /\ label (Workflow.model_output r) = Workflow.HumanStatus_string h
          /\ toLowerCase (Workflow.HumanStatus_string h)
             <> toLowerCase (d_status (decision ai)))
  /\ (forall (s : Workflow.Store) (id : string) (r : Workflow.AppRecord)
         (ai : AiResult) (h : Workflow.HumanStatus) (text : string),
        Workflow.records s !! id = Some r ->
        Workflow.ai_result r = Some ai ->
        exists r',
          Workflow.get (Workflow.human_decide s id h text).1 id = inr r'
          /\ Workflow.status r' = Workflow.completed
          /\ label (Workflow.model_output r') = Workflow.HumanStatus_string h
          /\ Workflow.is_override r'
             = negb (String.eqb
                       (toLowerCase (Workflow.HumanStatus_string h))
                       (toLowerCase (d_status (decision ai))))).
Proof.
  split.
  - intros ops id r Hr Hov. exact (run_ok threshold ops id r Hr Hov).
  - intros s id r ai h text Hr Hai.
    exists (Workflow.decided r h text).
    unfold Workflow.human_decide, Workflow.get. rewrite Hr.
    cbn [fst Workflow.records]. rewrite lookup_insert_eq.
    cbn. rewrite Hai. repeat split.
Qed.

(** ** Workflow: submission *)

Section Submission.

Import CustomerPage Workflow.

Lemma check_field_None payload f k :
  check_field payload (f, k) = None <->
  payload !! f = None
  \/ exists v, payload !! f = Some v /\ coerce k v = None.
Proof.
  unfold check_field. cbn. destruct (payload !! f) as [v|]; cbn.
  - destruct (coerce k v) eqn:Hc; cbn; split.
    + discriminate.
    + intros [H | (w & Hw & H)]; [discriminate|].
      injection Hw as <-. congruence.
    + intros _. right. eauto.
    + reflexivity.
  - split; auto.
Qed.

Lemma coerce_only_numbers_fail k v : coerce k v = None -> k = KNumber.
Proof. destruct k; cbn; congruence. Qed.

(** [validate] fails exactly when a required field is missing or a
    numeric field has a value that is not a number. *)
Lemma validate_None d payload :
  validate d payload = None <->
  exists f k, In (f, k) (formFields d)
    /\ (payload !! f = None
        \/ (k = KNumber
            /\ exists v, payload !! f = Some v /\ coerce KNumber v = None)).
Proof.
  unfold validate. rewrite mapM_None, Exists_exists. split.
  - intros ([f k] & Hin & Hc). apply list_elem_of_In in Hin.
    exists f, k. split; [exact Hin|].
    apply check_field_None in Hc. destruct Hc as [H | (v & Hv & Hc)]; [auto|].
    right. pose proof (coerce_only_numbers_fail _ _ Hc). subst k. eauto.
  - intros (f & k & Hin & H). exists (f, k).
    split; [now apply list_elem_of_In|].
    apply check_field_None. destruct H as [H | (-> & H)]; auto.
Qed.

End Submission.

(** C3. [Submit] answers [ValidationError] and leaves the store as it
    was whenever a required field of the domain is missing from the
    payload or a numeric field holds a value that does not coerce to a
    number. For every other payload it stores and returns a new record
    under an unused id, still [pending_ai] with the label "Pending" and
    no AI result: classification has not run. *)
Theorem submit_validates (s : Workflow.Store) (d : CustomerPage.Domain)
    (payload : gmap string JSValue) (now : N) :
  ((exists f k, In (f, k) (CustomerPage.formFields d)
      /\ (payload !! f = None
          \/ (k = CustomerPage.KNumber
              /\ exists v, payload !! f = Some v
                   /\ Workflow.coerce CustomerPage.KNumber v = None))) ->
   Workflow.submit s d payload now = (s, inl Workflow.ValidationError))
  /\ ((forall f k, In (f, k) (CustomerPage.formFields d) ->
         exists v, payload !! f = Some v
           /\ (k = CustomerPage.KNumber ->
               is_Some (Workflow.coerce CustomerPage.KNumber v))) ->
      exists r,
        Workflow.submit s d payload now
          = ({| Workflow.records :=
                  <[Workflow.decision_id r := r]> (Workflow.records s) |},
             inr r)
        /\ Workflow.records s !! Workflow.decision_id r = None
        /\ Workflow.domain r = d
        /\ Workflow.status r = Workflow.pending_ai
        /\ label (Workflow.model_output r) = "Pending"
        /\ Workflow.ai_result r = None
        /\ Workflow.is_override r = false
        /\ Workflow.timestamp r = now).
Proof.
  split.
  - intros H. apply validate_None in H. unfold Workflow.submit. now rewrite H.
  - intros H. unfold Workflow.submit.
    destruct (Workflow.validate d payload) as [coerced|] eqn:Hv.
    + match goal with |- exists r, (_, inr ?x) = _ /\ _ => exists x end.
      split; [reflexivity|]. cbn. repeat split.
      apply not_elem_of_dom, fresh_string_of_set_fresh.
    + exfalso. apply validate_None in Hv.
      destruct Hv as (f & k & Hin & Hbad).
      destruct (H f k Hin) as (v & Hv & Hnum).
      destruct Hbad as [Hm | (-> & w & Hw & Hc)]; [congruence|].
      assert (w = v) by congruence. subst w.
      destruct (Hnum eq_refl) as [x Hx]. congruence.
Qed.

(** ** Workflow: editing the explanation *)

(** Editing touches one record of the store only. *)
Lemma editExplanation_frame (s : Workflow.Store) (id other text : string) :
  other <> id ->
  Workflow.get (Workflow.editExplanation s id text).1 other
    = Workflow.get s other.
Proof.
  intros Hne. unfold Workflow.editExplanation, Workflow.get.
  destruct (Workflow.records s !! id); [|reflexivity].
  cbn [fst Workflow.records]. now rewrite lookup_insert_ne.
Qed.

(** What [get] returns after an edit of a stored record. *)
Lemma editExplanation_get (s : Workflow.Store) (id text : string)
    (r : Workflow.AppRecord) :
  Workflow.get s id = inr r ->
  (Workflow.editExplanation s id text).2 = inr tt
  /\ Workflow.get (Workflow.editExplanation s id text).1 id
     = inr (Workflow.edited r text).
Proof.
  intros Hget. unfold Workflow.get in Hget.
  destruct (Workflow.records s !! id) as [r0|] eqn:Hr; [|discriminate].
  injection Hget as ->.
  unfold Workflow.editExplanation, Workflow.get. rewrite Hr.
  cbn [fst snd Workflow.records]. rewrite lookup_insert_eq.
  split; reflexivity.
Qed.

(** Saving from the editor in edit mode: the store receives the trimmed
    text of the box, and that is the summary read back. *)
Lemma editor_save_roundtrip (s : Workflow.Store) (id : string)
    (r : Workflow.AppRecord) (st : ExplanationEditor.State) (scr : Screen) :
  Workflow.get s id = inr r ->
  trim (ExplanationEditor.explanation st) <> "" ->
  exists text r',
    head (ExplanationEditor.calls
            (ExplanationEditor.handleSave id false st scr (Ok tt)))
      = Some (ExplanationEditor.UpdateExplanation id text)
    /\ text = trim (ExplanationEditor.explanation st)
    /\ Workflow.get (Workflow.editExplanation s id text).1 id = inr r'
    /\ summary (Workflow.explanation r') = text.
Proof.
  intros Hget Hne.
  exists (trim (ExplanationEditor.explanation st)).
  exists (Workflow.edited r (trim (ExplanationEditor.explanation st))).
  rewrite handleSave_sends_trimmed.
  apply truthy_true in Hne. rewrite Hne.
  repeat split. now apply editExplanation_get.
Qed.

(** C4. For every stored record and every non-empty text,
    [editExplanation(id, text)] succeeds and a following [get(id)]
    returns a record whose summary is the text and whose status, model
    output and override flag, as well as AI result, features and
    identity, are those of the record before. *)
Theorem editExplanation_roundtrip (s : Workflow.Store) (id text : string)
    (r : Workflow.AppRecord) :
  Workflow.get s id = inr r ->
  text <> "" ->
  (Workflow.editExplanation s id text).2 = inr tt
  /\ exists r',
       Workflow.get (Workflow.editExplanation s id text).1 id = inr r'
       /\ summary (Workflow.explanation r') = text
       /\ Workflow.status r' = Workflow.status r
       /\ Workflow.model_output r' = Workflow.model_output r
       /\ Workflow.is_override r' = Workflow.is_override r
       /\ Workflow.ai_result r' = Workflow.ai_result r
       /\ Workflow.input_features r' = Workflow.input_features r
       /\ Workflow.decision_id r' = Workflow.decision_id r.
Proof.
  intros Hget _.
  destruct (editExplanation_get s id text r Hget) as [Hres Hread].
  split; [exact Hres|].
  exists (Workflow.edited r text). split; [exact Hread|].
  cbn. repeat split.
Qed.

(** The dashboard's own listing callback has no [catch]: a failed fetch
    leaves the component state as it is and rejects the callback. *)
Lemma loadData_failure_uncaught (st : Dashboard.State) (e : string) :
  Dashboard.state (Dashboard.loadData st (Err e)) = st
  /\ Dashboard.uncaught (Dashboard.loadData st (Err e)) = Some e.
Proof. split; reflexivity. Qed.

(** The customer page sends whatever the form holds: the request is
    made for every form state. *)
Lemma handleSubmit_always_sends (Number : string -> JSValue)
    (st : CustomerPage.State) (scr : Screen) (res : result SubmitResponse) :
  (CustomerPage.handleSubmit Number st scr res).2
    = (CustomerPage.domain st,
       CustomerPage.buildPayload Number (CustomerPage.formData st)).
Proof. destruct res; reflexivity. Qed.

(** A credit score that is no number leaves the page as [NaN] and is
    turned down by [Submit]. *)
Lemma bad_score_rejected :
  let sent := (CustomerPage.handleSubmit Samples.Number Samples.badScoreForm
                 Samples.blank (Err "422")).2 in
  sent.2 !! "credit_score" = Some JNaN
  /\ Workflow.submit Workflow.empty_store sent.1 sent.2 0
     = (Workflow.empty_store, inl Workflow.ValidationError).
Proof. split; vm_compute; reflexivity. Qed.

(** C6. A failed fetch on a tick of the dashboard's listing poll is not
    taken by the poller. [loadData] has no [catch]: with
    [getApplications] rejecting, the error leaves the callback unhandled
    and the poller writes no console line, where the status poller of
    the portal writes its console line on the same failure. State,
    alerts and timer are as before the tick. *)
Theorem loadData_failure_escapes :
  let r := DashboardPoll.loadTick Samples.reviewing Samples.blank
             (Err "Network Error") in
  let sibling := CustomerPortal.pollTick Samples.portalWaiting Samples.blank
                   (Err "Network Error") in
  Dashboard.uncaught r.1 = Some "Network Error"
  /\ console r.2 = []
  /\ alerts r.2 = []
  /\ Dashboard.state r.1 = Samples.reviewing
  /\ DashboardPoll.pollingEffect (Dashboard.state r.1) = Some 5000
  /\ console sibling.2 = ["Polling Error"]
  /\ sibling.1 = Samples.portalWaiting.
Proof. repeat split; reflexivity. Qed.

(** * The properties on the sample data *)

Lemma filteredCases_correct_witness :
  Dashboard.filteredCases (Some "loan") Samples.sampleData "" Dashboard.Approved
    = [Samples.mkCase "a1" "Approved" None; Samples.mkCase "a4" "LOW RISK" None]
  /\ Dashboard.filteredCases (Some "loan") Samples.sampleData "" Dashboard.Denied
    = [Samples.mkCase "a3" "Denied" (Some Samples.aiDenied)].
Proof.
  assert (Hne : "loan" <> "") by discriminate.
  destruct (filteredCases_correct Samples.sampleData "loan" Hne) as (Ha & _ & Hd).
  rewrite Ha, Hd. split; reflexivity.
Defined.

Lemma handleAction_approval_explanation_witness :
  exists explanation,
    head (Dashboard.calls
            (Dashboard.handleAction Samples.reviewing Dashboard.ActionApproved
               (Ok tt) (Ok Samples.sampleData)))
      = Some (Dashboard.UpdateApplicationStatus "a2" "loan"
                Dashboard.ActionApproved explanation)
    /\ explanation = "Income was verified by hand.".
Proof.
  assert (Hne : "loan" <> "") by discriminate.
  destruct (handleAction_approval_explanation Samples.reviewing "loan"
              (Samples.mkCase "a2" "Pending" (Some Samples.aiDenied))
              (Ok tt) (Ok Samples.sampleData) eq_refl Hne eq_refl)
    as (explanation & Hcall & _ & Halt & _).
  exists explanation. split; [exact Hcall|].
  apply (Halt Samples.aiDenied "Income was verified by hand." eq_refl);
    [discriminate | reflexivity | discriminate].
Defined.


Lemma pollTick_terminal_witness :
  CustomerPortal.pollStatus
    (CustomerPortal.pollTick Samples.portalWaiting Samples.blank
       (Ok (Some (Samples.mkCase "a2" "Denied" (Some Samples.aiDenied))))).1
  = CustomerPortal.completed.
Proof.
  destruct (pollTick_terminal Samples.portalWaiting Samples.blank
              (Samples.mkCase "a2" "Denied" (Some Samples.aiDenied)) eq_refl)
    as (_ & _ & _ & _ & Hdone & _).
  apply Hdone. discriminate.
Defined.

Lemma is_override_sound_witness :
  match Workflow.records (Workflow.run Samples.cutoff Samples.overrideHistory)
          !! "app" with
  | Some r =>
      Workflow.is_override r = true /\ Workflow.status r = Workflow.completed
  | None => False
  end.
Proof.
  destruct (Workflow.records (Workflow.run Samples.cutoff Samples.overrideHistory)
              !! "app") as [r|] eqn:Hr.
  - assert (Hov : Workflow.is_override r = true).
    { pose proof Hr as Hc. vm_compute in Hc. injection Hc as <-. reflexivity. }
    split; [exact Hov|].
    exact (proj1 (proj1 (is_override_sound Samples.cutoff)
                    Samples.overrideHistory "app" r Hr Hov)).
  - vm_compute in Hr. discriminate Hr.
Defined.

Lemma submit_validates_witness :
  Workflow.submit Workflow.empty_store CustomerPage.loan ∅ 0
    = (Workflow.empty_store, inl Workflow.ValidationError)
  /\ exists r,
       (Workflow.submit Workflow.empty_store CustomerPage.loan
          Samples.loanPayload 0).2 = inr r
       /\ Workflow.status r = Workflow.pending_ai.
Proof.
  split.
  - apply (submit_validates Workflow.empty_store CustomerPage.loan ∅ 0).
    exists "full_name", CustomerPage.KText. split; [left; reflexivity|].
    left. reflexivity.
  - destruct (proj2 (submit_validates Workflow.empty_store CustomerPage.loan
                       Samples.loanPayload 0)) as (r & Hs & _ & _ & Hst & _).
    + intros f k Hin. cbn in Hin.
      repeat (destruct Hin as [Hin|Hin];
              [injection Hin as <- <-; eexists;
               split; [vm_compute; reflexivity
                      | intros Hk;
                        first [discriminate Hk
                              | vm_compute; eexists; reflexivity]]|]).
      destruct Hin.
    + exists r. rewrite Hs. split; [reflexivity | exact Hst].
Defined.

Lemma editExplanation_roundtrip_witness :
  let s := (Workflow.submit Workflow.empty_store CustomerPage.loan
              Samples.loanPayload 0).1 in
  exists r',
    Workflow.get (Workflow.editExplanation s "app" "Reviewed by hand").1 "app"
      = inr r'
    /\ summary (Workflow.explanation r') = "Reviewed by hand"
    /\ Workflow.status r' = Workflow.pending_ai.
Proof.
  intros s.
  destruct (Workflow.get s "app") as [e|r] eqn:Hr.
  - vm_compute in Hr. discriminate Hr.
  - assert (Hne : "Reviewed by hand" <> "") by discriminate.
    destruct (editExplanation_roundtrip s "app" "Reviewed by hand" r Hr Hne)
      as (_ & r' & Hget & Hsum & Hst & _).
    exists r'. split; [exact Hget|]. split; [exact Hsum|].
    rewrite Hst. vm_compute in Hr. injection Hr as <-. reflexivity.
Defined.

(** * Further properties of the views *)

(** ** Substrings *)

Lemma prefix_spec (q s : string) :
  String.prefix q s = true <-> exists b, s = q ++ b.
Proof.
  revert s. induction q as [|c q IH]; intros s.
  - split; [intros _; exists s; reflexivity | intros _; destruct s; reflexivity].
  - destruct s as [|d s]; simpl;
      [split; [discriminate | intros [b Hb]; simpl in Hb; discriminate]|].
    destruct (ascii_dec c d) as [->|Hne].
    + rewrite IH. split; intros [b Hb]; exists b.
      * now rewrite Hb.
      * simpl in Hb. now injection Hb.
    + split; [discriminate|]. intros [b Hb]. simpl in Hb. injection Hb.
      congruence.
Qed.

Lemma includes_cons (c : ascii) (s q : string) :
  includes (String c s) q
  = if String.prefix q (String c s) then true else includes s q.
Proof. reflexivity. Qed.

Lemma includes_spec (s q : string) :
  includes s q = true <-> exists a b, s = a ++ q ++ b.
Proof.
  split.
  - induction s as [|c s IH].
    + destruct q; simpl; [|discriminate].
      intros _. exists "", "". reflexivity.
    + rewrite includes_cons.
      destruct (String.prefix q (String c s)) eqn:E.
      * intros _. apply prefix_spec in E. destruct E as [b Hb].
        exists "", b. exact Hb.
      * intros H. destruct (IH H) as (a & b & Hab).
        exists (String c a), b. simpl. now rewrite Hab.
  - intros (a & b & ->). induction a as [|c a IH].
    + assert (E : String.prefix q (q ++ b) = true)
        by (apply prefix_spec; eauto).
      change ("" ++ q ++ b) with (q ++ b).
      destruct (q ++ b) as [|d r] eqn:Eq.
      * destruct q; [reflexivity | discriminate E].
      * now rewrite includes_cons, E.
    + change (String c a ++ q ++ b) with (String c (a ++ q ++ b)).
      rewrite includes_cons.
      destruct (String.prefix q (String c (a ++ q ++ b))); [reflexivity|].
      exact IH.
Qed.

Lemma append_empty (s : string) : s ++ "" = s.
Proof.
  induction s as [|c s IH]; [reflexivity|].
  change (String c s ++ "") with (String c (s ++ "")). now rewrite IH.
Qed.

(** ** Dashboard: the case list under a search query *)

Section CaseList.

Import Dashboard.

Lemma filteredCases_shape (realData : gmap string (list CaseData))
    (category q : string) (f : FilterType) :
  category <> "" ->
  filteredCases (Some category) realData q f
  = List.filter (matches_search q)
      (List.filter
         (match f with
          | All => fun _ => true
          | Pending => is_pending
          | Approved => is_positive
          | Denied => fun c => negb (is_pending c) && negb (is_positive c)
          end)
         (default [] (realData !! category))).
Proof.
  intros Hne. apply truthy_true in Hne.
  unfold filteredCases. cbn [truthy_opt]. rewrite Hne.
  cbn [negb mbind option_bind]. f_equal. destruct f.
  - symmetry. now apply filter_all.
  - apply List.filter_ext, decided_filter_Approved.
  - apply List.filter_ext, decided_filter_Denied.
  - reflexivity.
Qed.

Lemma search_partition (m : CaseData -> bool) (l : list CaseData) :
  length (List.filter m l)
  = (length (List.filter m (List.filter is_pending l))
     + length (List.filter m (List.filter is_positive l))
     + length (List.filter m
         (List.filter (fun c => negb (is_pending c) && negb (is_positive c)) l)))%nat.
Proof.
  induction l as [|c l IH]; [reflexivity|]. simpl.
  destruct (is_pending c) eqn:Ep.
  - rewrite (pending_not_positive c Ep). simpl. destruct (m c); simpl; lia.
  - destruct (is_positive c); simpl; destruct (m c); simpl; lia.
Qed.

End CaseList.

(** X1. The numbers of the donut agree with the lists: with an empty
    search query, the approved, declined and pending counts of
    [getStats] for a category are the lengths of the lists that the
    filters "Approved", "Denied" and "Pending" show, and the total is the
    length of the list under "All". *)
Theorem stats_match_lists (realData : gmap string (list CaseData))
    (category : string) :
  category <> "" ->
  let s := Dashboard.getStats (default [] (realData !! category)) category in
  let shown f := Z.of_nat (length
      (Dashboard.filteredCases (Some category) realData "" f)) in
  Dashboard.approved s = shown Dashboard.Approved
  /\ Dashboard.declined s = shown Dashboard.Denied
  /\ Dashboard.pending s = shown Dashboard.Pending
  /\ Dashboard.total s = shown Dashboard.All.
Proof.
  intros Hne s shown. subst s shown. cbv beta.
  rewrite !(filteredCases_shape realData category "" _ Hne).
  rewrite !(filter_all (Dashboard.matches_search "")) by apply matches_search_empty.
  rewrite (filter_all (fun _ => true)) by reflexivity.
  pose proof (count_partition (default [] (realData !! category))) as P.
  unfold Dashboard.getStats, Dashboard.count in *.
  cbn [Dashboard.total Dashboard.pending Dashboard.approved Dashboard.declined].
  repeat split; lia.
Qed.

Lemma stats_match_lists_witness :
  Dashboard.approved (Dashboard.getStats Samples.loanCases "loan")
  = Z.of_nat (length (Dashboard.filteredCases (Some "loan") Samples.sampleData
                        "" Dashboard.Approved))
  /\ Dashboard.approved (Dashboard.getStats Samples.loanCases "loan") = 2.
Proof.
  assert (Hne : "loan" <> "") by discriminate.
  destruct (stats_match_lists Samples.sampleData "loan" Hne) as (A & _).
  split; [exact A | reflexivity].
Defined.

(** X2. For every search query, the list under a filter is the list
    under that filter with an empty query narrowed by the search; the
    lists under "Pending", "Approved" and "Denied" have no case in
    common, and together they have the cases of the list under "All". *)
Theorem search_narrows_and_partitions
    (realData : gmap string (list CaseData)) (category q : string) :
  category <> "" ->
  let shown f := Dashboard.filteredCases (Some category) realData q f in
  (forall f, shown f
     = List.filter (Dashboard.matches_search q)
         (Dashboard.filteredCases (Some category) realData "" f))
  /\ length (shown Dashboard.All)
     = (length (shown Dashboard.Pending) + length (shown Dashboard.Approved)
        + length (shown Dashboard.Denied))%nat
  /\ (forall c, In c (shown Dashboard.All) <->
        In c (shown Dashboard.Pending) \/ In c (shown Dashboard.Approved)
        \/ In c (shown Dashboard.Denied))
  /\ (forall c, ~ (In c (shown Dashboard.Pending) /\ In c (shown Dashboard.Approved))
             /\ ~ (In c (shown Dashboard.Pending) /\ In c (shown Dashboard.Denied))
             /\ ~ (In c (shown Dashboard.Approved) /\ In c (shown Dashboard.Denied))).
Proof.
  intros Hne shown. subst shown. cbv beta.
  split; [|split; [|split]].
  - intros f. rewrite !(filteredCases_shape realData category _ f Hne).
    now rewrite (filter_all (Dashboard.matches_search ""))
      by apply matches_search_empty.
  - rewrite !(filteredCases_shape realData category q _ Hne).
    rewrite (filter_all (fun _ => true)) by reflexivity.
    apply search_partition.
  - intros c. rewrite !(filteredCases_shape realData category q _ Hne).
    rewrite !filter_In.
    destruct (Dashboard.is_pending c), (Dashboard.is_positive c); simpl;
      intuition congruence.
  - intros c. rewrite !(filteredCases_shape realData category q _ Hne).
    rewrite !filter_In. repeat split; intros [[[_ H1] _] [[_ H2] _]].
    + rewrite (pending_not_positive c H1) in H2. discriminate.
    + rewrite H1 in H2. discriminate.
    + rewrite H1 in H2. rewrite andb_false_r in H2. discriminate.
Qed.

Lemma search_narrows_and_partitions_witness :
  length (Dashboard.filteredCases (Some "loan") Samples.sampleData "a"
            Dashboard.All) = 4%nat.
Proof.
  assert (Hne : "loan" <> "") by discriminate.
  destruct (search_narrows_and_partitions Samples.sampleData "loan" "a" Hne)
    as (_ & L & _).
  rewrite L. reflexivity.
Defined.

(** X3. A case is listed under "All" for a query exactly when it is a
    case of the category and either its applicant id contains the query
    or its lowercased decision id contains the lowercased query. So a
    case is found by its decision id typed in any letter case, and by
    the empty query. *)
Theorem search_lists_exactly
    (realData : gmap string (list CaseData)) (category q : string)
    (c : CaseData) :
  category <> "" ->
  (In c (Dashboard.filteredCases (Some category) realData q Dashboard.All) <->
     In c (default [] (realData !! category))
     /\ ((exists a b, or_else (applicant_id c) "" = a ++ q ++ b)
         \/ exists a b, toLowerCase (decision_id c) = a ++ toLowerCase q ++ b))
  /\ (In c (default [] (realData !! category)) ->
      toLowerCase q = toLowerCase (decision_id c) ->
      In c (Dashboard.filteredCases (Some category) realData q Dashboard.All))
  /\ (In c (default [] (realData !! category)) ->
      In c (Dashboard.filteredCases (Some category) realData "" Dashboard.All)).
Proof.
  intros Hne.
  assert (Hshape : forall q0,
    In c (Dashboard.filteredCases (Some category) realData q0 Dashboard.All) <->
    In c (default [] (realData !! category))
    /\ ((exists a b, or_else (applicant_id c) "" = a ++ q0 ++ b)
        \/ exists a b, toLowerCase (decision_id c) = a ++ toLowerCase q0 ++ b)).
  { intros q0. rewrite (filteredCases_shape realData category q0 _ Hne).
    rewrite (filter_all (fun _ => true)) by reflexivity.
    rewrite filter_In. unfold Dashboard.matches_search.
    rewrite orb_true_iff, !includes_spec. reflexivity. }
  split; [apply Hshape|]. split.
  - intros Hin Hq. apply Hshape. split; [exact Hin|]. right.
    exists "", "". rewrite Hq. cbn [String.append].
    now rewrite append_empty.
  - intros Hin. apply Hshape. split; [exact Hin|]. left.
    exists "", (or_else (applicant_id c) ""). reflexivity.
Qed.

Lemma search_lists_exactly_witness :
  In (Samples.mkCase "a3" "Denied" (Some Samples.aiDenied))
     (Dashboard.filteredCases (Some "loan") Samples.sampleData "A3" Dashboard.All).
Proof.
  assert (Hne : "loan" <> "") by discriminate.
  apply (proj1 (proj2 (search_lists_exactly Samples.sampleData "loan" "A3"
                         (Samples.mkCase "a3" "Denied" (Some Samples.aiDenied))
                         Hne))).
  - vm_compute. auto.
  - reflexivity.
Defined.

(** ** Dashboard: per-category state *)

Section CategoryStates.

Import Dashboard DashboardState.

Lemma getCurrentState_selected (st : State) (cat : string) :
  selectedCategory st = Some cat -> cat <> "" ->
  getCurrentState st
  = default defaultCategoryState (categoryStates st !! cat).
Proof.
  intros Hsel Hne. apply truthy_true in Hne.
  unfold getCurrentState. rewrite Hsel. cbn [truthy_opt mbind option_bind].
  now rewrite Hne.
Qed.

Lemma updateState_selected (st : State) (cat : string) (u : Updates) :
  selectedCategory st = Some cat -> cat <> "" ->
  selectedCategory (updateState st u) = Some cat
  /\ categoryStates (updateState st u)
     = <[cat := merge (getCurrentState st) u]> (categoryStates st)
  /\ realData (updateState st u) = realData st.
Proof.
  intros Hsel Hne. rewrite (getCurrentState_selected st cat Hsel Hne).
  apply truthy_true in Hne. unfold updateState. rewrite Hsel, Hne.
  cbn. auto.
Qed.

Lemma getCurrentState_updateState (st : State) (cat : string) (u : Updates) :
  selectedCategory st = Some cat -> cat <> "" ->
  getCurrentState (updateState st u) = merge (getCurrentState st) u.
Proof.
  intros Hsel Hne.
  destruct (updateState_selected st cat u Hsel Hne) as (Hs & Hc & _).
  rewrite (getCurrentState_selected _ cat Hs Hne), Hc.
  now rewrite lookup_insert_eq.
Qed.

(** [updateState({ activeCase: c })] is the update the handlers make. *)
Lemma updateActiveCase_updateState (st : State) (c : CaseData) :
  updateActiveCase st c = updateState st (pickCase c).
Proof. reflexivity. Qed.

Lemma getCurrentState_setRealData (st : State) (d : gmap string (list CaseData)) :
  getCurrentState (setRealData st d) = getCurrentState st.
Proof. reflexivity. Qed.

End CategoryStates.

(** X4. Search text, filter and active case are kept per category. An
    update reaches the selected category only: reading it back gives the
    given keys over the previous values, the states of the other
    categories are untouched, and they are found again after going to
    another category and back. Without a selected category an update
    does nothing, and a refresh of the data by the poll changes none of
    this. *)
Theorem category_state_persists (st : Dashboard.State) (category : string)
    (u : DashboardState.Updates) :
  Dashboard.selectedCategory st = Some category ->
  category <> "" ->
  let st' := DashboardState.updateState st u in
  Dashboard.getCurrentState st'
    = DashboardState.merge (Dashboard.getCurrentState st) u
  /\ (forall other, other <> category ->
        Dashboard.categoryStates st' !! other
          = Dashboard.categoryStates st !! other)
  /\ (forall other,
        Dashboard.getCurrentState
          (DashboardState.setSelectedCategory
             (DashboardState.setSelectedCategory st' other) (Some category))
        = DashboardState.merge (Dashboard.getCurrentState st) u)
  /\ DashboardState.updateState
       (DashboardState.setSelectedCategory st None) u
     = DashboardState.setSelectedCategory st None
  /\ (forall res,
        Dashboard.getCurrentState (Dashboard.state (Dashboard.loadData st' res))
        = Dashboard.getCurrentState st').
Proof.
  intros Hsel Hne st'. subst st'.
  destruct (updateState_selected st category u Hsel Hne) as (Hs & Hc & _).
  split; [exact (getCurrentState_updateState st category u Hsel Hne)|].
  split; [intros other Ho; rewrite Hc; now apply lookup_insert_ne|].
  split; [|split].
  - intros other.
    rewrite (getCurrentState_selected
               (DashboardState.setSelectedCategory
                  (DashboardState.setSelectedCategory
                     (DashboardState.updateState st u) other) (Some category))
               category eq_refl Hne).
    cbn [Dashboard.categoryStates DashboardState.setSelectedCategory].
    rewrite Hc. now rewrite lookup_insert_eq.
  - reflexivity.
  - intros [d|e]; reflexivity.
Qed.

Lemma category_state_persists_witness :
  Dashboard.filter
    (Dashboard.getCurrentState
       (DashboardState.updateState Samples.reviewing
          (DashboardState.pickFilter Dashboard.Denied)))
  = Dashboard.Denied
  /\ Dashboard.searchQuery
       (Dashboard.getCurrentState
          (DashboardState.updateState Samples.reviewing
             (DashboardState.pickFilter Dashboard.Denied))) = "".
Proof.
  assert (Hne : "loan" <> "") by discriminate.
  destruct (category_state_persists Samples.reviewing "loan"
              (DashboardState.pickFilter Dashboard.Denied) eq_refl Hne)
    as (H & _).
  rewrite H. split; reflexivity.
Defined.

(** X5. After an approval that went through and a reload that has the
    category, the dashboard shows the reloaded data and the active case
    is the first reloaded case with the decision id of the approved one,
    or the approved case as it was when the reload has none; the id of
    the active case, the search text, the filter, the selected category
    and the states of the other categories are unchanged. *)
Theorem approval_refreshes_active_case
    (st : Dashboard.State) (category : string) (c : CaseData)
    (newData : gmap string (list CaseData)) (l : list CaseData) :
  Dashboard.selectedCategory st = Some category ->
  category <> "" ->
  Dashboard.activeCase (Dashboard.getCurrentState st) = Some c ->
  newData !! category = Some l ->
  let r := Dashboard.handleAction st Dashboard.ActionApproved
             (Ok tt) (Ok newData) in
  let cur := Dashboard.getCurrentState (Dashboard.state r) in
  Dashboard.uncaught r = None
  /\ Dashboard.realData (Dashboard.state r) = newData
  /\ Dashboard.selectedCategory (Dashboard.state r) = Some category
  /\ Dashboard.activeCase cur
     = Some (default c
               (List.find (fun x => String.eqb (decision_id x) (decision_id c)) l))
  /\ (exists c', Dashboard.activeCase cur = Some c'
        /\ decision_id c' = decision_id c /\ (c' = c \/ In c' l))
  /\ Dashboard.searchQuery cur
     = Dashboard.searchQuery (Dashboard.getCurrentState st)
  /\ Dashboard.filter cur = Dashboard.filter (Dashboard.getCurrentState st)
  /\ (forall other, other <> category ->
        Dashboard.categoryStates (Dashboard.state r) !! other
        = Dashboard.categoryStates st !! other).
Proof.
  intros Hsel Hne Hact Hl r cur. subst cur r.
  assert (Hs1 : Dashboard.selectedCategory (Dashboard.setRealData st newData)
                = Some category) by exact Hsel.
  unfold Dashboard.handleAction. rewrite Hsel, Hact.
  pose proof Hne as Ht. apply truthy_true in Ht. rewrite Ht. cbn [negb].
  rewrite Hl. cbn [Dashboard.state Dashboard.uncaught].
  destruct (List.find _ l) as [u|] eqn:Hf.
  - rewrite updateActiveCase_updateState.
    destruct (updateState_selected _ category (DashboardState.pickCase u) Hs1 Hne)
      as (Hs & Hc & Hd).
    rewrite (getCurrentState_updateState _ category _ Hs1 Hne).
    rewrite getCurrentState_setRealData.
    apply find_some in Hf. destruct Hf as [Hin Hid].
    apply String.eqb_eq in Hid.
    repeat split; try assumption; try reflexivity.
    + exists u. cbn. auto.
    + intros other Ho. rewrite Hc. now apply lookup_insert_ne.
  - rewrite getCurrentState_setRealData, Hact.
    repeat split; try assumption; try reflexivity.
    exists c. auto.
Qed.

Lemma approval_refreshes_active_case_witness :
  Dashboard.activeCase
    (Dashboard.getCurrentState
       (Dashboard.state
          (Dashboard.handleAction Samples.reviewing Dashboard.ActionApproved
             (Ok tt) (Ok MoreSamples.reloaded))))
  = Some MoreSamples.approvedA2.
Proof.
  assert (Hne : "loan" <> "") by discriminate.
  destruct (approval_refreshes_active_case Samples.reviewing "loan"
              (Samples.mkCase "a2" "Pending" (Some Samples.aiDenied))
              MoreSamples.reloaded
              [Samples.mkCase "a1" "Approved" None; MoreSamples.approvedA2]
              eq_refl Hne eq_refl eq_refl)
    as (_ & _ & _ & H & _).
  rewrite H. reflexivity.
Defined.

(** ** Dashboard: the deny action and the override editor *)

Lemma handleAction_denied_state (st : Dashboard.State) (category : string)
    (c : CaseData) (upd : result unit)
    (apps : result (gmap string (list CaseData))) :
  Dashboard.selectedCategory st = Some category ->
  category <> "" ->
  Dashboard.activeCase (Dashboard.getCurrentState st) = Some c ->
  Dashboard.handleAction st Dashboard.ActionDenied upd apps
  = {| Dashboard.state :=
         Dashboard.setExplanationEditorState st
           {| Dashboard.isOpen := true;
              Dashboard.mode := Dashboard.ModeOverride;
              Dashboard.initialText :=
                Dashboard.actionExplanation Dashboard.manualDenial "rejected" c;
              Dashboard.action := Some Dashboard.ActionDenied |};
       Dashboard.calls := [];
       Dashboard.uncaught := None |}.
Proof.
  intros Hsel Hne Hact. apply truthy_true in Hne.
  unfold Dashboard.handleAction. now rewrite Hsel, Hact, Hne.
Qed.

(** X6. A Denied action on an active case calls no API and leaves data,
    selection and per-category state as they are: it opens the editor in
    override mode for the action Denied. The text proposed there is the
    AI's reasoning only when the AI status lowercases to "rejected";
    for any other status, "Denied" included, it is the alternative
    reasoning when that is non-empty, and the fixed manual-denial text
    otherwise and when there is no AI result. *)
Theorem denial_opens_override_editor
    (st : Dashboard.State) (category : string) (c : CaseData)
    (upd : result unit) (apps : result (gmap string (list CaseData))) :
  Dashboard.selectedCategory st = Some category ->
  category <> "" ->
  Dashboard.activeCase (Dashboard.getCurrentState st) = Some c ->
  let r := Dashboard.handleAction st Dashboard.ActionDenied upd apps in
  let ed := Dashboard.explanationEditorState (Dashboard.state r) in
  Dashboard.calls r = []
  /\ Dashboard.uncaught r = None
  /\ Dashboard.realData (Dashboard.state r) = Dashboard.realData st
  /\ Dashboard.categoryStates (Dashboard.state r) = Dashboard.categoryStates st
  /\ Dashboard.selectedCategory (Dashboard.state r) = Some category
  /\ Dashboard.isOpen ed = true
  /\ Dashboard.mode ed = Dashboard.ModeOverride
  /\ Dashboard.action ed = Some Dashboard.ActionDenied
  /\ (forall ai, ai_result c = Some ai ->
        toLowerCase (d_status (decision ai)) = "rejected" ->
        Dashboard.initialText ed = d_reasoning (decision ai))
  /\ (forall ai alt, ai_result c = Some ai ->
        toLowerCase (d_status (decision ai)) <> "rejected" ->
        alternative_reasoning ai = Some alt -> alt <> "" ->
        Dashboard.initialText ed = alt)
  /\ (ai_result c = None
      \/ (exists ai, ai_result c = Some ai
            /\ toLowerCase (d_status (decision ai)) <> "rejected"
            /\ (alternative_reasoning ai = None
                \/ alternative_reasoning ai = Some "")) ->
      Dashboard.initialText ed
        = "Manually denied by auditor due to policy mismatch.").
Proof.
  intros Hsel Hne Hact r ed. subst ed r.
  rewrite (handleAction_denied_state st category c upd apps Hsel Hne Hact).
  cbn [Dashboard.state Dashboard.calls Dashboard.uncaught
       Dashboard.setExplanationEditorState Dashboard.explanationEditorState
       Dashboard.realData Dashboard.categoryStates Dashboard.selectedCategory
       Dashboard.isOpen Dashboard.mode Dashboard.action Dashboard.initialText].
  do 8 (split; [first [reflexivity | assumption]|]).
  apply actionExplanation_cases.
Qed.

Lemma denial_opens_override_editor_witness :
  Dashboard.initialText
    (Dashboard.explanationEditorState
       (Dashboard.state
          (Dashboard.handleAction Samples.reviewing Dashboard.ActionDenied
             (Ok tt) (Ok Samples.sampleData))))
  = "Income was verified by hand.".
Proof.
  assert (Hne : "loan" <> "") by discriminate.
  destruct (denial_opens_override_editor Samples.reviewing "loan"
              (Samples.mkCase "a2" "Pending" (Some Samples.aiDenied))
              (Ok tt) (Ok Samples.sampleData) eq_refl Hne eq_refl)
    as (_ & _ & _ & _ & _ & _ & _ & _ & _ & Halt & _).
  apply (Halt Samples.aiDenied); [reflexivity | discriminate | reflexivity
                                  | discriminate].
Defined.

(** X7. The whole denial: after the Denied action, while the box is
    blank or a save is running the Save button is disabled and a click
    runs nothing. Otherwise a click sends [updateApplicationStatus] for
    the active case, the selected category and the action Denied with
    the trimmed text of the box, once; when that call resolves the
    reload [getApplications] follows and the editor is closed, and when
    it rejects nothing more is sent and the editor stays open with its
    error line. *)
Theorem denial_sends_trimmed_text
    (st : Dashboard.State) (category : string) (c : CaseData)
    (upd : result unit) (apps : result (gmap string (list CaseData)))
    (ed : ExplanationEditor.State) (scr : Screen) (res : result unit)
    (reload : result (gmap string (list CaseData))) :
  Dashboard.selectedCategory st = Some category ->
  category <> "" ->
  Dashboard.activeCase (Dashboard.getCurrentState st) = Some c ->
  let st' := Dashboard.state
               (Dashboard.handleAction st Dashboard.ActionDenied upd apps) in
  let sent := Dashboard.UpdateApplicationStatus (decision_id c) category
                Dashboard.ActionDenied (trim (ExplanationEditor.explanation ed)) in
  (ExplanationEditor.loading ed = true
   \/ trim (ExplanationEditor.explanation ed) = "" ->
   DashboardState.saveClick st' ed scr res = None)
  /\ (ExplanationEditor.loading ed = false ->
      trim (ExplanationEditor.explanation ed) <> "" ->
      exists run,
        DashboardState.saveClick st' ed scr res = Some run
        /\ DashboardState.sentByEditor st' run reload
           = match res with
             | Ok _ => [DashboardState.ApiRequest sent;
                        DashboardState.ApiRequest Dashboard.GetApplications]
             | Err _ => [DashboardState.ApiRequest sent]
             end
        /\ (In ExplanationEditor.OnClose (ExplanationEditor.calls run) <->
            exists u, res = Ok u)
        /\ (ExplanationEditor.error (ExplanationEditor.state run) = None <->
            exists u, res = Ok u)).
Proof.
  intros Hsel Hne Hact st' sent. subst st' sent.
  rewrite (handleAction_denied_state st category c upd apps Hsel Hne Hact).
  cbn [Dashboard.state].
  unfold DashboardState.saveClick, DashboardState.editorProps,
    DashboardState.saveDisabled.
  cbn [Dashboard.setExplanationEditorState Dashboard.explanationEditorState
       Dashboard.isOpen Dashboard.mode].
  change (Dashboard.getCurrentState (Dashboard.setExplanationEditorState st _))
    with (Dashboard.getCurrentState st).
  rewrite Hact. cbn [mbind option_bind DashboardState.applicationId
                     DashboardState.hasOnSubmit
                     DashboardState.EditorMode_is_override].
  split.
  - intros [-> | Hb]; [reflexivity|].
    apply truthy_false in Hb. rewrite Hb. now rewrite orb_true_r.
  - intros -> Hx. pose proof Hx as Ht. apply truthy_true in Ht. rewrite Ht.
    cbn [negb orb]. eexists. split; [reflexivity|].
    unfold ExplanationEditor.handleSave, DashboardState.sentByEditor,
      DashboardState.onSubmit.
    change (Dashboard.getCurrentState (Dashboard.setExplanationEditorState st _))
      with (Dashboard.getCurrentState st).
    cbn [Dashboard.setExplanationEditorState Dashboard.explanationEditorState
         Dashboard.action Dashboard.selectedCategory].
    rewrite Hact, Hsel, Ht. cbn [negb].
    pose proof Hne as Hc. apply truthy_true in Hc.
    destruct res as [u|e];
      cbn [ExplanationEditor.calls ExplanationEditor.state
           ExplanationEditor.error flat_map app].
    + rewrite Hc. split.
      * destruct reload as [d|e]; [|reflexivity].
        unfold DashboardState.onSave.
        change (Dashboard.getCurrentState (Dashboard.setExplanationEditorState st _))
          with (Dashboard.getCurrentState st).
        cbn [Dashboard.setExplanationEditorState Dashboard.selectedCategory].
        rewrite Hsel, Hact, Hc. destruct (d !! category); reflexivity.
      * split; split; eauto; intros _; cbn; auto.
    + rewrite Hc. split; [reflexivity|].
      split; split; try discriminate;
        try (intros [u Hu]; discriminate Hu).
      intros [H|[]]. discriminate H.
Qed.

Lemma denial_sends_trimmed_text_witness :
  exists run,
    DashboardState.saveClick
      (Dashboard.state
         (Dashboard.handleAction Samples.reviewing Dashboard.ActionDenied
            (Ok tt) (Ok Samples.sampleData)))
      MoreSamples.typedDenial Samples.blank (Ok tt) = Some run
    /\ DashboardState.sentByEditor
         (Dashboard.state
            (Dashboard.handleAction Samples.reviewing Dashboard.ActionDenied
               (Ok tt) (Ok Samples.sampleData))) run (Ok MoreSamples.reloaded)
       = [DashboardState.ApiRequest
            (Dashboard.UpdateApplicationStatus "a2" "loan"
               Dashboard.ActionDenied "Debt above policy limit.");
          DashboardState.ApiRequest Dashboard.GetApplications].
Proof.
  assert (Hne : "loan" <> "") by discriminate.
  destruct (denial_sends_trimmed_text Samples.reviewing "loan"
              (Samples.mkCase "a2" "Pending" (Some Samples.aiDenied))
              (Ok tt) (Ok Samples.sampleData)
              MoreSamples.typedDenial Samples.blank (Ok tt)
              (Ok MoreSamples.reloaded) eq_refl Hne eq_refl)
    as (_ & Hrun).
  destruct (Hrun eq_refl) as (run & Hclick & Hsent & _); [discriminate|].
  exists run. split; [exact Hclick | exact Hsent].
Defined.

(** ** Explanation editor and policy manager: what is sent *)

(** X8. The editor closes exactly when the save went through: [onSave]
    and [onClose] are called if and only if the text is not blank and
    the awaited call resolved; in every other case an error line is set
    and the editor stays open. The text of the box and the console of a
    successful save are never changed. *)
Theorem editor_closes_iff_saved (id : string) (sub : bool)
    (st : ExplanationEditor.State) (scr : Screen) (res : result unit) :
  let r := ExplanationEditor.handleSave id sub st scr res in
  let saved := trim (ExplanationEditor.explanation st) <> ""
               /\ exists u, res = Ok u in
  (In ExplanationEditor.OnClose (ExplanationEditor.calls r) <-> saved)
  /\ (In ExplanationEditor.OnSave (ExplanationEditor.calls r) <-> saved)
  /\ (ExplanationEditor.error (ExplanationEditor.state r) = None <-> saved)
  /\ ExplanationEditor.explanation (ExplanationEditor.state r)
     = ExplanationEditor.explanation st
  /\ alerts (ExplanationEditor.screen r) = alerts scr
  /\ (saved -> ExplanationEditor.screen r = scr).
Proof.
  intros r saved. subst r saved. unfold ExplanationEditor.handleSave.
  destruct (truthy (trim (ExplanationEditor.explanation st))) eqn:E; cbn [negb].
  - apply truthy_true in E. destruct res as [u|e]; cbn.
    + repeat split; eauto.
    + repeat split; try reflexivity; try discriminate;
        try (intros (_ & u & Hu); discriminate Hu).
      all: exfalso; destruct H as [H|[]]; destruct sub; discriminate H.
  - apply truthy_false in E. cbn.
    repeat split; try reflexivity; try discriminate; try contradiction;
      intros [Hne _]; contradiction.
Qed.

(** X9. What the editor and the policy manager send is never blank:
    every text passed to [onSubmit], [updateExplanation] or [addPolicy]
    is the trimmed text of the box and is not empty, and a policy is
    added to the active domain; with a box whose trimmed text is empty
    the two handlers make no call at all. *)
Theorem sent_texts_never_blank :
  (forall (id : string) (sub : bool) (st : ExplanationEditor.State)
          (scr : Screen) (res : result unit),
     (forall t,
        In (ExplanationEditor.OnSubmit t)
           (ExplanationEditor.calls (ExplanationEditor.handleSave id sub st scr res))
        \/ In (ExplanationEditor.UpdateExplanation id t)
             (ExplanationEditor.calls (ExplanationEditor.handleSave id sub st scr res)) ->
        t = trim (ExplanationEditor.explanation st) /\ t <> "")
     /\ (trim (ExplanationEditor.explanation st) = "" ->
         ExplanationEditor.calls (ExplanationEditor.handleSave id sub st scr res)
         = []))
  /\ (forall (st : PolicyManager.State) (scr : Screen) (add : result unit)
             (load : result (gmap string (list PolicyManager.Policy))),
        (forall d t,
           In (PolicyManager.AddPolicy d t)
              (PolicyManager.calls (PolicyManager.handleAddPolicy st scr add load)) ->
           d = PolicyManager.activeDomain st
           /\ t = trim (PolicyManager.newPolicyText st) /\ t <> "")
        /\ (trim (PolicyManager.newPolicyText st) = "" ->
            PolicyManager.handleAddPolicy st scr add load
            = {| PolicyManager.state := st; PolicyManager.screen := scr;
                 PolicyManager.calls := [] |})).
Proof.
  split.
  - intros id sub st scr res. unfold ExplanationEditor.handleSave.
    destruct (truthy (trim (ExplanationEditor.explanation st))) eqn:E;
      cbn [negb].
    + apply truthy_true in E. split.
      * intros t H. destruct res, sub; cbn in H; intuition congruence.
      * intros Hb. contradiction.
    + split; [intros t H; cbn in H; tauto | reflexivity].
  - intros st scr add load. unfold PolicyManager.handleAddPolicy.
    destruct (truthy (trim (PolicyManager.newPolicyText st))) eqn:E;
      cbn [negb].
    + apply truthy_true in E. split.
      * intros d t H. destruct add.
        -- destruct (PolicyManager.loadPolicies _ scr load).
           cbn in H. intuition congruence.
        -- cbn in H. intuition congruence.
      * intros Hb. contradiction.
    + split; [intros d t H; cbn in H; tauto | reflexivity].
Qed.

Lemma sent_texts_never_blank_witness :
  "Decline when debt exceeds income"
  = trim (PolicyManager.newPolicyText Samples.addingPolicy).
Proof.
  apply (proj1 (proj2 sent_texts_never_blank Samples.addingPolicy Samples.blank
                  (Ok tt) (Ok ∅)) "loan" "Decline when debt exceeds income").
  left. reflexivity.
Defined.

(** ** Submission payloads *)

Lemma coerceField_lookup (Number : string -> JSValue)
    (p : gmap string JSValue) (n f : string) :
  CustomerPage.coerceField Number p n !! f
  = if decide (f = n) then
      match p !! n with
      | Some (JStr v) => Some (if truthy v then Number v else JStr v)
      | o => o
      end
    else p !! f.
Proof.
  unfold CustomerPage.coerceField.
  destruct (p !! n) as [[v| |]|] eqn:Hp; try (destruct (truthy v) eqn:Hv);
    case_decide; subst; rewrite ?lookup_insert_eq, ?lookup_insert_ne by auto;
    auto.
Qed.

(** The conversion loop over a list of distinct field names. *)
Lemma coerce_names_lookup (Number : string -> JSValue)
    (fd : gmap string string) (names : list string) :
  List.NoDup names ->
  forall (p : gmap string JSValue),
    (forall f, In f names -> p !! f = JStr <$> fd !! f) ->
    forall f,
      foldl (CustomerPage.coerceField Number) p names !! f
      = if arr_includes names f then
          match fd !! f with
          | Some v => Some (if truthy v then Number v else JStr v)
          | None => None
          end
        else p !! f.
Proof.
  induction names as [|n rest IH]; intros Hnd p Hp f; [reflexivity|].
  inversion Hnd as [|? ? Hnot Hrest]; subst.
  cbn [foldl]. rewrite IH; [|exact Hrest|].
  - unfold arr_includes. cbn [existsb].
    fold (arr_includes rest f).
    destruct (arr_includes rest f) eqn:Er; [now rewrite orb_true_r|].
    rewrite orb_false_r, coerceField_lookup.
    destruct (String.eqb_spec f n) as [->|Hfn].
    + rewrite decide_True by reflexivity.
      rewrite (Hp n) by (left; reflexivity).
      destruct (fd !! n); reflexivity.
    + now rewrite decide_False by exact Hfn.
  - intros g Hg. rewrite coerceField_lookup.
    rewrite decide_False by (intros ->; contradiction).
    apply Hp. now right.
Qed.

(** The conversion loop when the conversion never yields a string. *)
Lemma coerce_names_lookup_any (Number : string -> JSValue)
    (fd : gmap string string) (names : list string) :
  (forall s t, Number s <> JStr t) ->
  forall (p : gmap string JSValue),
    (forall f, p !! f = JStr <$> fd !! f
               \/ p !! f = match fd !! f with
                           | Some v => Some (if truthy v then Number v else JStr v)
                           | None => None
                           end) ->
    forall f,
      foldl (CustomerPage.coerceField Number) p names !! f
      = if arr_includes names f then
          match fd !! f with
          | Some v => Some (if truthy v then Number v else JStr v)
          | None => None
          end
        else p !! f.
Proof.
  intros HN. induction names as [|n rest IH]; intros p Hp f; [reflexivity|].
  assert (Hn : CustomerPage.coerceField Number p n !! n
               = match fd !! n with
                 | Some v => Some (if truthy v then Number v else JStr v)
                 | None => None
                 end).
  { rewrite coerceField_lookup, decide_True by reflexivity.
    destruct (Hp n) as [-> | ->]; destruct (fd !! n) as [v|]; cbn; try reflexivity.
    destruct (truthy v) eqn:Hv; [|now rewrite Hv].
    destruct (Number v) as [t| |] eqn:E; try reflexivity.
    now destruct (HN v t). }
  cbn [foldl]. rewrite IH.
  - unfold arr_includes. cbn [existsb]. fold (arr_includes rest f).
    destruct (arr_includes rest f) eqn:Er; [now rewrite orb_true_r|].
    rewrite orb_false_r.
    destruct (String.eqb_spec f n) as [->|Hfn]; [exact Hn|].
    now rewrite coerceField_lookup, decide_False by exact Hfn.
  - intros g. destruct (decide (g = n)) as [->|Hg].
    + right. exact Hn.
    + rewrite coerceField_lookup, decide_False by exact Hg. apply Hp.
Qed.

Lemma numericFields_NoDup : List.NoDup CustomerPage.numericFields.
Proof.
  unfold CustomerPage.numericFields.
  repeat (constructor; [cbn; intuition discriminate|]). constructor.
Qed.

Lemma buildPayload_lookup (Number : string -> JSValue)
    (fd : gmap string string) (f : string) :
  CustomerPage.buildPayload Number fd !! f
  = match fd !! f with
    | Some v =>
        Some (if arr_includes CustomerPage.numericFields f && truthy v
              then Number v else JStr v)
    | None => None
    end.
Proof.
  unfold CustomerPage.buildPayload.
  rewrite (coerce_names_lookup Number fd _ numericFields_NoDup)
    by (intros g _; apply lookup_fmap).
  rewrite lookup_fmap.
  destruct (arr_includes CustomerPage.numericFields f);
    destruct (fd !! f); reflexivity.
Qed.

Lemma cleanData_as_names (Number : string -> JSValue)
    (fields : list CustomerPortal.FormField) (p : gmap string JSValue) :
  foldl (CustomerPortal.cleanField Number) p fields
  = foldl (CustomerPage.coerceField Number) p (PortalFlow.numberNames fields).
Proof.
  revert p. induction fields as [|fl fields IH]; intros p; [reflexivity|].
  unfold PortalFlow.numberNames. cbn [foldl List.filter].
  rewrite IH. unfold CustomerPortal.cleanField, CustomerPage.coerceField.
  destruct (CustomerPortal.type fl); cbn [fmap list_fmap foldl];
    try reflexivity;
    now destruct (p !! CustomerPortal.name fl) as [[v| |]|].
Qed.

(** X10. The customer page sends the form as it is, field by field: no
    key is added or dropped; a field of the numeric list that holds
    non-empty text is sent as its [Number]; every other field, and an
    empty numeric field, is sent as the text typed. *)
Theorem buildPayload_pointwise (Number : string -> JSValue)
    (fd : gmap string string) :
  (forall f,
     CustomerPage.buildPayload Number fd !! f
     = match fd !! f with
       | Some v =>
           Some (if arr_includes CustomerPage.numericFields f && truthy v
                 then Number v else JStr v)
       | None => None
       end)
  /\ dom (CustomerPage.buildPayload Number fd) = dom fd
  /\ (forall f, fd !! f = Some "" ->
        CustomerPage.buildPayload Number fd !! f = Some (JStr "")).
Proof.
  split; [apply buildPayload_lookup|]. split.
  - apply set_eq. intros f. rewrite !elem_of_dom, buildPayload_lookup.
    destruct (fd !! f); split; intros [x Hx]; eauto; discriminate.
  - intros f Hf. rewrite buildPayload_lookup, Hf.
    now rewrite andb_false_r.
Qed.

(** X11. The portal's conversion loop, for any field table and any
    [Number] that yields numbers: a field is sent as its [Number] exactly
    when the table lists it with type number and its text is not empty;
    otherwise it is sent as the text typed, and no key is added or
    dropped. Fields listed more than once are converted once. *)
Theorem cleanData_pointwise (Number : string -> JSValue)
    (fields : list CustomerPortal.FormField) (fd : gmap string string) :
  (forall s t, Number s <> JStr t) ->
  (forall f,
     CustomerPortal.cleanData Number fields fd !! f
     = match fd !! f with
       | Some v =>
           Some (if arr_includes (PortalFlow.numberNames fields) f && truthy v
                 then Number v else JStr v)
       | None => None
       end)
  /\ dom (CustomerPortal.cleanData Number fields fd) = dom fd.
Proof.
  intros HN.
  assert (H : forall f,
     CustomerPortal.cleanData Number fields fd !! f
     = match fd !! f with
       | Some v =>
           Some (if arr_includes (PortalFlow.numberNames fields) f && truthy v
                 then Number v else JStr v)
       | None => None
       end).
  { intros f. unfold CustomerPortal.cleanData. rewrite cleanData_as_names.
    rewrite (coerce_names_lookup_any Number fd _ HN)
      by (intros g; left; apply lookup_fmap).
    rewrite lookup_fmap.
    destruct (arr_includes (PortalFlow.numberNames fields) f);
      destruct (fd !! f); reflexivity. }
  split; [exact H|].
  apply set_eq. intros f. rewrite !elem_of_dom, H.
  destruct (fd !! f); split; intros [x Hx]; eauto; discriminate.
Qed.

Lemma cleanData_pointwise_witness :
  CustomerPortal.cleanData Samples.Number MoreSamples.loanForm
    (CustomerPage.formData Samples.badScoreForm) !! "credit_score"
  = Some JNaN.
Proof.
  assert (HN : forall s t, Samples.Number s <> JStr t).
  { intros s t. unfold Samples.Number.
    destruct (Workflow.parse_number s); discriminate. }
  rewrite (proj1 (cleanData_pointwise Samples.Number MoreSamples.loanForm
                    (CustomerPage.formData Samples.badScoreForm) HN)).
  reflexivity.
Defined.

(** X12. The numeric inputs of the customer page and the list of fields
    it converts do not agree: of the inputs rendered with type number,
    [companies_worked], [career_gaps], [credit_history_years],
    [defaults] and [previous_claims] are sent as the text typed, and the
    others as their [Number]. *)
Theorem unconverted_numeric_inputs (Number : string -> JSValue)
    (d : CustomerPage.Domain) (f v : string) (fd : gmap string string) :
  In (f, CustomerPage.KNumber) (CustomerPage.renderFormFields d) ->
  fd !! f = Some v ->
  v <> "" ->
  CustomerPage.buildPayload Number fd !! f
  = Some (if arr_includes
               ["companies_worked"; "career_gaps"; "credit_history_years";
                "defaults"; "previous_claims"] f
          then JStr v else Number v).
Proof.
  intros Hin Hf Hv. apply truthy_true in Hv.
  rewrite buildPayload_lookup, Hf, Hv, andb_true_r.
  destruct d; cbn in Hin;
    repeat (destruct Hin as [Hin|Hin];
            [try discriminate Hin; injection Hin as <-; reflexivity|]);
    destruct Hin.
Qed.

Lemma unconverted_numeric_inputs_witness :
  CustomerPage.buildPayload Samples.Number {["defaults" := "2"]} !! "defaults"
  = Some (JStr "2").
Proof.
  assert (Hv : "2" <> "") by discriminate.
  apply (unconverted_numeric_inputs Samples.Number CustomerPage.credit
           "defaults" "2" {["defaults" := "2"]}).
  - cbn. tauto.
  - reflexivity.
  - exact Hv.
Defined.

Lemma buildPayload_pointwise_witness :
  CustomerPage.buildPayload Samples.Number
    (CustomerPage.formData Samples.badScoreForm) !! "credit_score" = Some JNaN
  /\ CustomerPage.buildPayload Samples.Number
       (CustomerPage.formData Samples.badScoreForm) !! "gender"
     = Some (JStr "F").
Proof.
  rewrite !(proj1 (buildPayload_pointwise Samples.Number
                     (CustomerPage.formData Samples.badScoreForm))).
  split; reflexivity.
Defined.

(** ** Customer portal: from submission to result *)

Lemma pollTick_idle (st : CustomerPortal.State) (scr : Screen)
    (o : result (option CaseData)) :
  PortalFlow.terminal o = false ->
  (CustomerPortal.pollTick st scr o).1 = st
  /\ (CustomerPortal.pollTick st scr o).2
     = if PortalFlow.failed o then log "Polling Error" scr else scr.
Proof.
  destruct o as [[s|]|e]; cbn; auto.
  intros H. rewrite H. auto.
Qed.

Lemma settleAll_last (st : CustomerPortal.State) (scr : Screen)
    (answers : list (result (option CaseData))) (o : result (option CaseData)) :
  PortalFlow.settleAll st scr (answers ++ [o])
  = CustomerPortal.pollTick (PortalFlow.settleAll st scr answers).1
      (PortalFlow.settleAll st scr answers).2 o.
Proof. unfold PortalFlow.settleAll. now rewrite foldl_app. Qed.

Lemma lastTerminal_last (answers : list (result (option CaseData)))
    (o : result (option CaseData)) :
  PortalFlow.lastTerminal (answers ++ [o])
  = match o with
    | Ok (Some status) =>
        if PortalFlow.terminal o then Some status
        else PortalFlow.lastTerminal answers
    | _ => PortalFlow.lastTerminal answers
    end.
Proof. unfold PortalFlow.lastTerminal. now rewrite foldl_app. Qed.

(** X13. The answers of the status fetches applied in the order in
    which they settle, overlapping fetches included: the portal ends
    completed with the result of the last answer whose label is not
    "Pending", so a later such answer replaces an earlier result; when
    there is none the state is the one before. Failed, empty and pending
    answers never change the state, each failed answer writes one
    console line, nothing is alerted, and the form, the submitted id and
    the application type are never touched. *)
Theorem poll_keeps_last_result (st : CustomerPortal.State) (scr : Screen)
    (answers : list (result (option CaseData))) :
  let r := PortalFlow.settleAll st scr answers in
  match PortalFlow.lastTerminal answers with
  | Some status =>
      CustomerPortal.pollStatus r.1 = CustomerPortal.completed
      /\ CustomerPortal.aiResult r.1 = Some (PortalFlow.resultOf status)
      /\ CustomerPortal.pollingEffect r.1 = None
  | None => r.1 = st
  end
  /\ CustomerPortal.applicationType r.1 = CustomerPortal.applicationType st
  /\ CustomerPortal.formData r.1 = CustomerPortal.formData st
  /\ CustomerPortal.submittedId r.1 = CustomerPortal.submittedId st
  /\ CustomerPortal.isSubmitting r.1 = CustomerPortal.isSubmitting st
  /\ alerts r.2 = alerts scr
  /\ console r.2
     = (console scr
        ++ replicate (length (List.filter PortalFlow.failed answers))
             "Polling Error")%list.
Proof.
  cbv zeta. induction answers as [|o answers IH] using rev_ind.
  - cbn. rewrite app_nil_r. repeat split.
  - rewrite settleAll_last, lastTerminal_last.
    destruct IH as (Hres & Ht & Hf & Hi & Hs & Ha & Hc).
    rewrite List.filter_app, length_app, replicate_add, app_assoc, <- Hc.
    destruct (PortalFlow.terminal o) eqn:Eo.
    + destruct o as [[status|]|e]; try discriminate Eo.
      cbn [PortalFlow.terminal] in Eo.
      unfold CustomerPortal.pollTick. rewrite Eo.
      cbn [fst snd List.filter PortalFlow.failed length replicate].
      rewrite app_nil_r. repeat split; assumption.
    + destruct (pollTick_idle (PortalFlow.settleAll st scr answers).1
                  (PortalFlow.settleAll st scr answers).2 o Eo) as [Hst Hscr].
      rewrite Hst, Hscr.
      assert (Hlast :
        match o with
        | Ok (Some status) => PortalFlow.lastTerminal answers
        | _ => PortalFlow.lastTerminal answers
        end = PortalFlow.lastTerminal answers)
        by (destruct o as [[?|]|?]; reflexivity).
      rewrite Hlast.
      split; [exact Hres|]. do 4 (split; [assumption|]).
      destruct o as [[?|]|?]; cbn; rewrite ?app_nil_r; auto.
Qed.

Lemma poll_keeps_last_result_witness :
  CustomerPortal.aiResult
    (PortalFlow.settleAll Samples.portalWaiting Samples.blank
       [Err "timeout"; Ok (Some (Samples.mkCase "a2" "Denied" None));
        Ok (Some (Samples.mkCase "a2" "Pending" None));
        Ok (Some (Samples.mkCase "a2" "Approved" None)); Ok None]).1
  = Some (PortalFlow.resultOf (Samples.mkCase "a2" "Approved" None)).
Proof.
  exact (proj1 (proj2 (proj1
    (poll_keeps_last_result Samples.portalWaiting Samples.blank
       [Err "timeout"; Ok (Some (Samples.mkCase "a2" "Denied" None));
        Ok (Some (Samples.mkCase "a2" "Pending" None));
        Ok (Some (Samples.mkCase "a2" "Approved" None)); Ok None])))).
Defined.

(** X14. A submission that went through always puts the portal on the
    waiting screen, but the poll starts only when the answer carries a
    non-empty id and an application type is chosen: with an empty id the
    portal waits and no fetch is ever made. A failed submission leaves
    the poll as it was. *)
Theorem submission_starts_poll (Number : string -> JSValue)
    (FORM_FIELDS : gmap string (list CustomerPortal.FormField))
    (st : CustomerPortal.State) (scr : Screen) (r : SubmitResponse) :
  let st' := (CustomerPortal.handleFormSubmit Number FORM_FIELDS st scr (Ok r)).1.1 in
  CustomerPortal.pollStatus st' = CustomerPortal.waiting
  /\ CustomerPortal.submittedId st' = Some (resp_id r)
  /\ (CustomerPortal.aiResult st = None ->
      PortalFlow.view st' = PortalFlow.WaitingScreen)
  /\ (CustomerPortal.pollingEffect st' = Some 2000 <->
      resp_id r <> ""
      /\ exists t, CustomerPortal.applicationType st = Some t /\ t <> "")
  /\ (resp_id r = "" ->
      forall scr' outcomes,
        PortalFlow.pollRun st' scr' outcomes = (st', scr'))
  /\ (forall e,
        let st'' := (CustomerPortal.handleFormSubmit Number FORM_FIELDS st scr
                       (Err e)).1.1 in
        CustomerPortal.pollingEffect st'' = CustomerPortal.pollingEffect st
        /\ CustomerPortal.submittedId st'' = CustomerPortal.submittedId st).
Proof.
  cbv zeta. cbn [CustomerPortal.handleFormSubmit fst].
  split; [reflexivity|]. split; [reflexivity|]. split; [|split; [|split]].
  - unfold PortalFlow.view. cbn. now intros ->.
  - unfold CustomerPortal.pollingEffect. cbn.
    destruct (truthy (resp_id r)) eqn:Er.
    + apply truthy_true in Er.
      destruct (CustomerPortal.applicationType st) as [t|]; cbn.
      * destruct (truthy t) eqn:Et.
        -- apply truthy_true in Et. split; [intros _|reflexivity].
           split; [exact Er | eauto].
        -- apply truthy_false in Et. split; [discriminate|].
           intros (_ & t' & [= <-] & Hne). contradiction.
      * split; [discriminate|]. intros (_ & t' & Hd & _). discriminate.
    + apply truthy_false in Er. split; [discriminate|].
      intros [Hne _]. contradiction.
  - intros Hid scr' outcomes. destruct outcomes as [|o rest]; [reflexivity|].
    cbn [PortalFlow.pollRun]. unfold CustomerPortal.pollingEffect. cbn.
    now rewrite Hid.
  - intros e. split; reflexivity.
Qed.

Lemma submission_starts_poll_witness :
  PortalFlow.pollRun
    (CustomerPortal.handleFormSubmit Samples.Number ∅ Samples.portalWaiting
       Samples.blank (Ok {| resp_id := ""; resp_status := "pending_ai" |})).1.1
    Samples.blank [Ok (Some (Samples.mkCase "a2" "Denied" None))]
  = ((CustomerPortal.handleFormSubmit Samples.Number ∅ Samples.portalWaiting
        Samples.blank (Ok {| resp_id := ""; resp_status := "pending_ai" |})).1.1,
     Samples.blank).
Proof.
  apply (submission_starts_poll Samples.Number ∅ Samples.portalWaiting
           Samples.blank {| resp_id := ""; resp_status := "pending_ai" |}).
  reflexivity.
Defined.

(** X15. What the customer sees after the poll: the result screen takes
    the label as the decision text, so it shows a denial exactly when
    the lowercased label is "denied" or "high risk" and congratulates on
    every other label; the steps to approval are listed only on a denial
    whose AI result has at least one counterfactual. *)
Theorem poll_result_screen (st : CustomerPortal.State) (scr : Screen)
    (status : CaseData) :
  label (model_output status) <> "Pending" ->
  exists result,
    CustomerPortal.aiResult
      (CustomerPortal.pollTick st scr (Ok (Some status))).1 = Some result
    /\ PortalFlow.view (CustomerPortal.pollTick st scr (Ok (Some status))).1
       = PortalFlow.ResultScreen
    /\ AiResultView.decisionText result = label (model_output status)
    /\ (AiResultView.isDenied result = true <->
        toLowerCase (label (model_output status)) = "denied"
        \/ toLowerCase (label (model_output status)) = "high risk")
    /\ AiResultView.heading result
       = (if AiResultView.isDenied result then label (model_output status)
          else "Congratulations! Your application has been approved.")
    /\ (AiResultView.showsSteps result = true <->
        AiResultView.isDenied result = true
        /\ exists ai c cs, ai_result status = Some ai
             /\ counterfactuals ai = Some (c :: cs)).
Proof.
  intros Hlab. apply String.eqb_neq in Hlab.
  unfold CustomerPortal.pollTick. rewrite Hlab. cbn [negb fst].
  eexists. split; [reflexivity|]. split; [reflexivity|].
  split; [reflexivity|].
  unfold AiResultView.showsSteps, AiResultView.heading, AiResultView.isApproved,
    AiResultView.isDenied.
  cbn [AiResultView.decisionText AiResultView.decision
       AiResultView.counterfactuals].
  split; [|split].
  - rewrite orb_true_iff, !String.eqb_eq. reflexivity.
  - destruct (_ || _); reflexivity.
  - destruct (_ || _); cbn [negb andb].
    + destruct (ai_result status) as [ai|]; cbn.
      * destruct (counterfactuals ai) as [[|c cs]|] eqn:Ec.
        -- split; [discriminate|]. intros (_ & ai' & c & cs & [= <-] & H).
           congruence.
        -- split; [intros _; split; eauto 6 | reflexivity].
        -- split; [discriminate|]. intros (_ & ai' & c & cs & [= <-] & H).
           congruence.
      * split; [discriminate|]. intros (_ & ai' & c & cs & H & _). discriminate.
    + split; [discriminate|]. intros [H _]. discriminate.
Qed.

Lemma poll_result_screen_witness :
  exists result,
    CustomerPortal.aiResult
      (CustomerPortal.pollTick Samples.portalWaiting Samples.blank
         (Ok (Some (Samples.mkCase "a2" "Rejected" (Some Samples.aiDenied))))).1
    = Some result
    /\ AiResultView.heading result
       = "Congratulations! Your application has been approved.".
Proof.
  assert (Hne : "Rejected" <> "Pending") by discriminate.
  destruct (poll_result_screen Samples.portalWaiting Samples.blank
              (Samples.mkCase "a2" "Rejected" (Some Samples.aiDenied)) Hne)
    as (result & Hres & _ & _ & Hden & Hhead & _).
  exists result. split; [exact Hres|]. rewrite Hhead.
  destruct (AiResultView.isDenied result) eqn:E; [|reflexivity].
  destruct (proj1 Hden eq_refl) as [H|H]; discriminate H.
Defined.

(** ** Earlier review console *)

(** X16. A review decision removes the selected application from the
    list at once and does not bring it back when the call fails: on both
    outcomes the list is the old one without every entry that has the id
    of the selection, in the old order, the selection is cleared, and
    one call is made with the note "Manual review by employee". Only the
    alert tells a failure apart. *)
Theorem decision_removes_optimistically (st : ReviewConsole.State)
    (scr : Screen) (d : ReviewConsole.ReviewDecision) (res : result unit)
    (app : ReviewConsole.Application) :
  ReviewConsole.selectedApp st = Some app ->
  let r := ReviewConsole.handleDecision st scr d res in
  ReviewConsole.applications r.1.1
    = List.filter
        (fun a => negb (String.eqb (ReviewConsole.id a) (ReviewConsole.id app)))
        (ReviewConsole.applications st)
  /\ (forall a, In a (ReviewConsole.applications r.1.1) <->
        In a (ReviewConsole.applications st)
        /\ ReviewConsole.id a <> ReviewConsole.id app)
  /\ ReviewConsole.selectedApp r.1.1 = None
  /\ r.2 = Some (ReviewConsole.id app, d, "Manual review by employee")
  /\ r.1.1 = (ReviewConsole.handleDecision st scr d (Ok tt)).1.1
  /\ (In app (ReviewConsole.applications st) ->
      (length (ReviewConsole.applications r.1.1)
       < length (ReviewConsole.applications st))%nat)
  /\ (alerts r.1.2 = alerts scr <-> exists u, res = Ok u).
Proof.
  intros Hsel r. subst r. unfold ReviewConsole.handleDecision. rewrite Hsel.
  assert (Hmem : forall a,
    In a (List.filter
            (fun a => negb (String.eqb (ReviewConsole.id a) (ReviewConsole.id app)))
            (ReviewConsole.applications st)) <->
    In a (ReviewConsole.applications st)
    /\ ReviewConsole.id a <> ReviewConsole.id app).
  { intros a. rewrite filter_In, negb_true_iff, String.eqb_neq. reflexivity. }
  assert (Hlen : In app (ReviewConsole.applications st) ->
    (length (List.filter
               (fun a => negb (String.eqb (ReviewConsole.id a) (ReviewConsole.id app)))
               (ReviewConsole.applications st))
     < length (ReviewConsole.applications st))%nat).
  { generalize (ReviewConsole.applications st) as l.
    induction l as [|a l IH]; [intros []|]. intros Hin. cbn [List.filter].
    destruct (String.eqb_spec (ReviewConsole.id a) (ReviewConsole.id app))
      as [E|E]; cbn [negb].
    - pose proof (List.filter_length_le
                    (fun a => negb (String.eqb (ReviewConsole.id a)
                                      (ReviewConsole.id app))) l).
      cbn [length]. lia.
    - destruct Hin as [->|Hin]; [contradiction|].
      cbn [length]. specialize (IH Hin). lia. }
  destruct res as [u|e]; cbn [fst snd ReviewConsole.applications
                             ReviewConsole.selectedApp].
  - repeat split; try apply Hmem; auto. intros _. eauto.
  - repeat split; try apply Hmem; auto.
    + cbn. intros H. exfalso.
      assert (Hl : length (alerts scr ++ ["Failed to submit decision. Please refresh."])
                   = length (alerts scr)) by now rewrite H.
      rewrite length_app in Hl. cbn in Hl. lia.
    + intros [u Hu]. discriminate.
Qed.

Lemma decision_removes_optimistically_witness :
  ReviewConsole.applications
    (ReviewConsole.handleDecision MoreSamples.queue Samples.blank
       ReviewConsole.rejected (Err "offline")).1.1
  = [MoreSamples.mkApp "p1" "loan"; MoreSamples.mkApp "p3" "loan"].
Proof.
  destruct (decision_removes_optimistically MoreSamples.queue Samples.blank
              ReviewConsole.rejected (Err "offline")
              (MoreSamples.mkApp "p2" "job") eq_refl) as (H & _).
  rewrite H. reflexivity.
Defined.

(** X17. The domain filter of the console: "all" shows every
    application, a domain shows exactly the applications of that domain
    in their order, and when every application belongs to one of the
    four domains the four filtered lists together have as many entries
    as the whole list. *)
Theorem filteredApps_by_domain (st : ReviewConsole.State) :
  let listed d :=
    ReviewTools.filteredApps
      {| ReviewConsole.activeTab := ReviewConsole.activeTab st;
         ReviewConsole.applications := ReviewConsole.applications st;
         ReviewConsole.selectedApp := ReviewConsole.selectedApp st;
         ReviewConsole.loading := ReviewConsole.loading st;
         ReviewConsole.filterDomain := d |} in
  listed "all" = ReviewConsole.applications st
  /\ (forall d a, d <> "all" ->
        (In a (listed d) <->
         In a (ReviewConsole.applications st) /\ ReviewConsole.domain a = d))
  /\ ((forall a, In a (ReviewConsole.applications st) ->
         In (ReviewConsole.domain a) ReviewTools.DOMAINS) ->
      (length (listed "loan") + length (listed "credit")
       + length (listed "insurance") + length (listed "job"))%nat
      = length (ReviewConsole.applications st)).
Proof.
  cbv zeta. unfold ReviewTools.filteredApps.
  cbn [ReviewConsole.filterDomain ReviewConsole.applications].
  split; [|split].
  - cbn. now apply filter_all.
  - intros d a Hd. apply String.eqb_neq in Hd. rewrite Hd.
    rewrite filter_In, String.eqb_eq. reflexivity.
  - cbn. generalize (ReviewConsole.applications st) as l.
    induction l as [|a l IH]; intros Hall; [reflexivity|].
    assert (Ha := Hall a (or_introl eq_refl)).
    specialize (IH (fun b Hb => Hall b (or_intror Hb))).
    cbn [List.filter length].
    cbn in Ha. destruct Ha as [<-|[<-|[<-|[<-|[]]]]]; cbn; lia.
Qed.

Lemma filteredApps_by_domain_witness :
  In (MoreSamples.mkApp "p3" "loan") (ReviewTools.filteredApps MoreSamples.queue)
  /\ ~ In (MoreSamples.mkApp "p2" "job")
         (ReviewTools.filteredApps MoreSamples.queue).
Proof.
  assert (Hne : "loan" <> "all") by discriminate.
  destruct (filteredApps_by_domain MoreSamples.queue) as (_ & Hd & _).
  split.
  - apply (proj2 (Hd "loan" (MoreSamples.mkApp "p3" "loan") Hne)).
    split; [cbn; tauto | reflexivity].
  - intros Hin.
    destruct (proj1 (Hd "loan" (MoreSamples.mkApp "p2" "job") Hne) Hin)
      as [_ Hdom].
    discriminate Hdom.
Defined.

(** X18. The batch upload of the console reports success for whatever
    [fetch] resolves to, an HTTP error answer included: it alerts "Batch
    processed successfully!" and reloads the list; only a rejected
    [fetch] alerts "Upload failed" and leaves the list alone. The file
    posted is the first one chosen, nothing is posted without a file,
    and the domain put in the URL is the text of the prompt as typed,
    "loan" when the prompt is cancelled or left empty. *)
Theorem batch_upload_reports (st : ReviewConsole.State) (scr : Screen)
    (file : string) (others : list string) (answer : option string)
    (reload : result (list ReviewConsole.Application)) :
  (forall resp,
     let r := ReviewTools.handleFileUpload st scr (file :: others) answer
                (Ok resp) reload in
     alerts r.1.2 = (alerts scr ++ ["Batch processed successfully!"])%list
     /\ r.1.1 = (ReviewConsole.fetchApplications st scr reload).1
     /\ r.2 = Some (ReviewTools.batchUrl (or_else answer "loan"), file))
  /\ (forall e,
        let r := ReviewTools.handleFileUpload st scr (file :: others) answer
                   (Err e) reload in
        alerts r.1.2 = (alerts scr ++ ["Upload failed"])%list
        /\ r.1.1 = st
        /\ r.2 = Some (ReviewTools.batchUrl (or_else answer "loan"), file))
  /\ (forall res,
        ReviewTools.handleFileUpload st scr [] answer res reload
        = (st, scr, None))
  /\ (answer = None \/ answer = Some "" -> or_else answer "loan" = "loan")
  /\ (forall t, answer = Some t -> t <> "" -> or_else answer "loan" = t).
Proof.
  split; [|split; [|split; [|split]]].
  - intros resp. cbn. destruct reload; cbn; auto.
  - intros e. cbn. auto.
  - intros res. reflexivity.
  - intros [-> | ->]; reflexivity.
  - intros t -> Ht. apply truthy_true in Ht. cbn. now rewrite Ht.
Qed.

Lemma batch_upload_reports_witness :
  alerts (ReviewTools.handleFileUpload MoreSamples.queue Samples.blank
            ["rows.csv"] (Some "")
            (Ok {| ReviewTools.ok := false; ReviewTools.http_status := 422 |})
            (Err "offline")).1.2
  = ["Batch processed successfully!"]
  /\ or_else (Some "") "loan" = "loan".
Proof.
  destruct (batch_upload_reports MoreSamples.queue Samples.blank "rows.csv" []
              (Some "") (Err "offline")) as (Hok & _ & _ & Hdef & _).
  split.
  - apply (Hok {| ReviewTools.ok := false; ReviewTools.http_status := 422 |}).
  - apply Hdef. right. reflexivity.
Defined.

(** ** Policy manager *)

(** X19. The policy list on screen changes only when the change and the
    reload that follows it both went through, and it is then the
    reloaded list; otherwise it is the old list. The three handlers
    never touch the active domain or the drag highlight. Deleting and
    uploading leave the text box alone and end with the busy flag
    cleared whatever the box holds; adding does nothing at all on a
    blank box and otherwise empties the box exactly when the add went
    through, also when the reload after it failed. *)
Theorem policies_change_only_on_reload (st : PolicyManager.State)
    (scr : Screen) (arg : string) (res : result unit)
    (load : result (gmap string (list PolicyManager.Policy))) :
  (forall r,
     In r [PolicyManager.handleDeletePolicy st scr arg res load;
           PolicyManager.handleFileUpload st scr arg res load] ->
     PolicyManager.policies (PolicyManager.state r)
     = match res, load with
       | Ok _, Ok data => data
       | _, _ => PolicyManager.policies st
       end
     /\ PolicyManager.activeDomain (PolicyManager.state r)
        = PolicyManager.activeDomain st
     /\ PolicyManager.dragActive (PolicyManager.state r)
        = PolicyManager.dragActive st
     /\ PolicyManager.newPolicyText (PolicyManager.state r)
        = PolicyManager.newPolicyText st
     /\ PolicyManager.loading (PolicyManager.state r) = false)
  /\ (let r := PolicyManager.handleAddPolicy st scr res load in
      PolicyManager.activeDomain (PolicyManager.state r)
      = PolicyManager.activeDomain st
      /\ PolicyManager.dragActive (PolicyManager.state r)
         = PolicyManager.dragActive st
      /\ (trim (PolicyManager.newPolicyText st) <> "" ->
          PolicyManager.policies (PolicyManager.state r)
          = match res, load with
            | Ok _, Ok data => data
            | _, _ => PolicyManager.policies st
            end
          /\ PolicyManager.newPolicyText (PolicyManager.state r)
             = match res with
               | Ok _ => ""
               | Err _ => PolicyManager.newPolicyText st
               end
          /\ PolicyManager.loading (PolicyManager.state r) = false)
      /\ (trim (PolicyManager.newPolicyText st) = "" ->
          r = {| PolicyManager.state := st; PolicyManager.screen := scr;
                 PolicyManager.calls := [] |})).
Proof.
  split.
  - unfold PolicyManager.handleDeletePolicy, PolicyManager.handleFileUpload.
    intros r [<-|[<-|[]]]; destruct res as [u|e]; try destruct load;
      cbn; auto.
  - cbv zeta. unfold PolicyManager.handleAddPolicy.
    destruct (truthy (trim (PolicyManager.newPolicyText st))) eqn:E;
      cbn [negb].
    + apply truthy_true in E.
      destruct res as [u|e]; [destruct load|]; cbn;
        repeat split; auto; try (intros; contradiction).
    + apply truthy_false in E. cbn.
      do 2 (split; [reflexivity|]).
      split; [intros Hx; contradiction | reflexivity].
Qed.

Lemma policies_change_only_on_reload_witness :
  PolicyManager.newPolicyText
    (PolicyManager.state
       (PolicyManager.handleAddPolicy Samples.addingPolicy Samples.blank
          (Ok tt) (Err "offline"))) = ""
  /\ PolicyManager.policies
       (PolicyManager.state
          (PolicyManager.handleAddPolicy Samples.addingPolicy Samples.blank
             (Ok tt) (Err "offline"))) = ∅.
Proof.
  assert (Hne : trim (PolicyManager.newPolicyText Samples.addingPolicy) <> "")
    by discriminate.
  destruct (policies_change_only_on_reload Samples.addingPolicy Samples.blank
              "" (Ok tt) (Err "offline")) as (_ & _ & _ & Hadd & _).
  destruct (Hadd Hne) as (Hp & Hbox & _).
  split; [exact Hbox | exact Hp].
Defined.

(** ** Dashboard: failed approvals and card colours *)

(** X20. How an approval can fail. When [updateApplicationStatus]
    rejects, no reload is made and the dashboard is as before the click.
    When it resolves but the reload rejects, the approval has been sent
    and the dashboard still shows the old data. When the reload has no
    list for the category, the new data are shown but the active case is
    not refreshed. In all three cases the error is taken by no handler. *)
Theorem approval_failure_modes (st : Dashboard.State) (category : string)
    (c : CaseData) :
  Dashboard.selectedCategory st = Some category ->
  category <> "" ->
  Dashboard.activeCase (Dashboard.getCurrentState st) = Some c ->
  (forall e apps,
     let r := Dashboard.handleAction st Dashboard.ActionApproved (Err e) apps in
     Dashboard.state r = st /\ Dashboard.uncaught r = Some e
     /\ ~ In Dashboard.GetApplications (Dashboard.calls r)
     /\ length (Dashboard.calls r) = 1%nat)
  /\ (forall e,
        let r := Dashboard.handleAction st Dashboard.ActionApproved
                   (Ok tt) (Err e) in
        Dashboard.state r = st /\ Dashboard.uncaught r = Some e
        /\ exists text,
             Dashboard.calls r
             = [Dashboard.UpdateApplicationStatus (decision_id c) category
                  Dashboard.ActionApproved text; Dashboard.GetApplications])
  /\ (forall newData, newData !! category = None ->
        let r := Dashboard.handleAction st Dashboard.ActionApproved
                   (Ok tt) (Ok newData) in
        Dashboard.realData (Dashboard.state r) = newData
        /\ Dashboard.getCurrentState (Dashboard.state r)
           = Dashboard.getCurrentState st
        /\ is_Some (Dashboard.uncaught r)).
Proof.
  intros Hsel Hne Hact. apply truthy_true in Hne.
  unfold Dashboard.handleAction. rewrite Hsel, Hact, Hne. cbn [negb].
  split; [|split].
  - intros e apps. cbn. repeat split; auto.
    intros [H|[]]. discriminate H.
  - intros e. cbn. repeat split; eauto.
  - intros newData Hnone. rewrite Hnone. cbn. repeat split; eauto.
Qed.

Lemma approval_failure_modes_witness :
  Dashboard.state
    (Dashboard.handleAction Samples.reviewing Dashboard.ActionApproved
       (Ok tt) (Err "offline")) = Samples.reviewing.
Proof.
  assert (Hne : "loan" <> "") by discriminate.
  destruct (approval_failure_modes Samples.reviewing "loan"
              (Samples.mkCase "a2" "Pending" (Some Samples.aiDenied))
              eq_refl Hne eq_refl) as (_ & H & _).
  exact (proj1 (H "offline")).
Defined.

(** X21. The colour of a card agrees with the filter that lists it, for
    every search query: a case listed under "Pending" is amber, a case
    listed under "Approved" has the positive colour of the category, and
    a case listed under "Denied" the negative one. *)
Theorem colours_agree_with_filters
    (realData : gmap string (list CaseData)) (category q : string)
    (positive negative : string) (c : CaseData) :
  category <> "" ->
  (In c (Dashboard.filteredCases (Some category) realData q Dashboard.Pending) ->
   DashboardState.statusColor positive negative c = "#f59e0b")
  /\ (In c (Dashboard.filteredCases (Some category) realData q Dashboard.Approved) ->
      DashboardState.statusColor positive negative c = positive)
  /\ (In c (Dashboard.filteredCases (Some category) realData q Dashboard.Denied) ->
      DashboardState.statusColor positive negative c = negative).
Proof.
  intros Hne. rewrite !(filteredCases_shape realData category q _ Hne).
  rewrite !filter_In. unfold DashboardState.statusColor.
  repeat split.
  - intros [[_ H] _]. now rewrite H.
  - intros [[_ H] _]. rewrite H.
    destruct (Dashboard.is_pending c) eqn:Ep; [|reflexivity].
    rewrite (pending_not_positive c Ep) in H. discriminate.
  - intros [[_ H] _]. apply andb_true_iff in H. destruct H as [H1 H2].
    apply negb_true_iff in H1, H2. now rewrite H1, H2.
Qed.

Lemma colours_agree_with_filters_witness :
  DashboardState.statusColor "#10b981" "#ef4444"
    (Samples.mkCase "a4" "LOW RISK" None) = "#10b981".
Proof.
  assert (Hne : "loan" <> "") by discriminate.
  apply (proj1 (proj2 (colours_agree_with_filters Samples.sampleData "loan" ""
                         "#10b981" "#ef4444"
                         (Samples.mkCase "a4" "LOW RISK" None) Hne))).
  vm_compute. tauto.
Defined.
